(** * Statistics dashboard: aggregation engine and occupancy reconciliation

    A shallow embedding of the computation inside the [statistics] memo of
    [src/client/pages/Statistics.tsx], together with the reconciliation
    procedure the page imports from [@/utils/syncUtils].

    Numbers.  JavaScript numbers are IEEE-754 doubles.  Every count, capacity,
    age and time value of this program is an integer far below 2^53, which a
    double holds exactly, so these are [Z].  The three ratios
    ([occupancyRate], [turnoverRate], [retentionRate]) are embedded as exact
    rationals [Q]; the rounding error of the double division itself is outside
    the model.  Where a statement turns on the rounding of the returned
    figures, the same lines are also run on binary64 numbers ([Binary64]).

    Dates.  A date field of a worker is the time value (milliseconds since the
    epoch) of [new Date(field)], or [None] when the field is missing or empty;
    date strings the host fails to parse are not represented.  The clock read
    by [new Date()] and the offset of local time are explicit inputs. *)

From Stdlib Require Import ZArith QArith Qround Qabs Lqa Lia List Ascii Sorted.
From stdpp Require Import gmap strings list fin_maps.
From Corelib Require PrimFloat.
Import ListNotations.

Local Open Scope Z_scope.

(** ** JavaScript primitives used by the page *)

Module JS.

(** [s ? a : b] and [s && ...] on a possibly missing string: [undefined],
    [null] and the empty string are falsy. *)
Definition truthy (s : option string) : bool :=
  match s with
  | Some s => negb (String.eqb s "")
  | None => false
  end.

(** [s || d] on a possibly missing string. *)
Definition or_else (s : option string) (d : string) : string :=
  if truthy s then default d s else d.

(** [a.length] as a number. *)
Definition len {A} (l : list A) : Z := Z.of_nat (length l).

(** [a.reduce((sum, x) => sum + x, 0)]. *)
Definition sum (l : list Z) : Z := fold_left Z.add l 0.

(** [Math.round]: the nearest integer, a tie going up. *)
Definition Math_round (x : Q) : Z := Qfloor (x + (1 # 2)).

(** [Math.floor] and [Math.ceil]. *)
Definition Math_floor (x : Q) : Z := Qfloor x.
Definition Math_ceil (x : Q) : Z := Qceiling x.

(** [Math.round(x * 100) / 100], the two-decimal rounding of the outputs. *)
Definition round2 (x : Q) : Q := inject_Z (Math_round (x * 100)) / 100.

End JS.

(** ** Records of [@shared/types], with the fields the page reads *)

Module Worker.
Record t := mk {
  nom : string;
  fermeId : string;
  statut : string;              (* 'actif' | 'inactif' *)
  sexe : string;                (* 'homme' | 'femme' *)
  age : Z;
  dateEntree : option Z;
  dateSortie : option Z;
  motif : option string;
  chambre : option string;
}.
End Worker.

Module Room.
Record t := mk {
  id : string;
  fermeId : string;
  numero : string;
  genre : string;               (* 'hommes' | 'femmes' *)
  capaciteTotale : Z;
  occupantsActuels : Z;
}.
End Room.

Abbreviation Workers := (list Worker.t).
Abbreviation Rooms := (list Room.t).

Definition is_actif (w : Worker.t) : bool := String.eqb (Worker.statut w) "actif".
Definition is_inactif (w : Worker.t) : bool := String.eqb (Worker.statut w) "inactif".

(** [w.statut === 'inactif' && w.dateSortie] *)
Definition is_exited (w : Worker.t) : bool :=
  is_inactif w && bool_decide (is_Some (Worker.dateSortie w)).

(** [w.statut === 'actif' && w.chambre] *)
Definition is_housed (w : Worker.t) : bool :=
  is_actif w && JS.truthy (Worker.chambre w).

(** ** Occupied places (lines 85-95) *)

(** [worker.sexe === 'homme' ? 'hommes' : 'femmes'] *)
Definition workerGenderType (w : Worker.t) : string :=
  if String.eqb (Worker.sexe w) "homme" then "hommes" else "femmes".

(** The template literal [`${fermeId}-${chambre}-${workerGenderType}`]. *)
Definition roomKey (w : Worker.t) : string :=
  Worker.fermeId w +:+ "-" +:+ default "" (Worker.chambre w) +:+ "-" +:+ workerGenderType w.

(** One turn of the [forEach]:
    [workerRoomMap.set(roomKey, (workerRoomMap.get(roomKey) || 0) + 1)]. *)
Definition count_worker (m : gmap string Z) (w : Worker.t) : gmap string Z :=
  <[roomKey w := default 0 (m !! roomKey w) + 1]> m.

Definition workerRoomMap (workers : Workers) : gmap string Z :=
  fold_left count_worker (List.filter is_housed workers) ∅.

(** [Array.from(m.values()).reduce((sum, count) => sum + count, 0)] *)
Definition map_values_sum `{Countable K} (m : gmap K Z) : Z :=
  JS.sum (snd <$> map_to_list m).

Definition occupiedPlaces (workers : Workers) : Z :=
  map_values_sum (workerRoomMap workers).

(** ** The host's [Date] (ECMA-262, section "Date Objects")

    Time values are milliseconds since the epoch.  Local time is UTC shifted
    by a fixed offset [LocalTZA]; daylight-saving changes of the offset are
    not modelled. *)

Module Date.

Definition msPerDay : Z := 86400000.

Definition Day (t : Z) : Z := t / msPerDay.
Definition TimeWithinDay (t : Z) : Z := t mod msPerDay.

Definition InLeapYear (y : Z) : bool :=
  (y mod 4 =? 0) && (negb (y mod 100 =? 0) || (y mod 400 =? 0)).

Definition DaysInYear (y : Z) : Z := if InLeapYear y then 366 else 365.

Definition DayFromYear (y : Z) : Z :=
  365 * (y - 1970) + (y - 1969) / 4 - (y - 1901) / 100 + (y - 1601) / 400.

(** The largest [y] with [DayFromYear y <= d]: an estimate from the mean
    length of a year, then one step of correction. *)
Definition YearFromDay (d : Z) : Z :=
  let y := 1970 + d * 400 / 146097 in
  if d <? DayFromYear y then y - 1
  else if DayFromYear (y + 1) <=? d then y + 1
  else y.

Definition YearFromTime (t : Z) : Z := YearFromDay (Day t).

Definition DayWithinYear (t : Z) : Z := Day t - DayFromYear (YearFromTime t).

(** Month number 0..11 of a day within a year; [l] is 1 in a leap year. *)
Definition MonthFromDay (d l : Z) : Z :=
  if d <? 31 then 0
  else if d <? 59 + l then 1
  else if d <? 90 + l then 2
  else if d <? 120 + l then 3
  else if d <? 151 + l then 4
  else if d <? 181 + l then 5
  else if d <? 212 + l then 6
  else if d <? 243 + l then 7
  else if d <? 273 + l then 8
  else if d <? 304 + l then 9
  else if d <? 334 + l then 10
  else 11.

(** Number of days of the year before month [m]. *)
Definition DaysBeforeMonth (m l : Z) : Z :=
  if m =? 0 then 0
  else if m =? 1 then 31
  else if m =? 2 then 59 + l
  else if m =? 3 then 90 + l
  else if m =? 4 then 120 + l
  else if m =? 5 then 151 + l
  else if m =? 6 then 181 + l
  else if m =? 7 then 212 + l
  else if m =? 8 then 243 + l
  else if m =? 9 then 273 + l
  else if m =? 10 then 304 + l
  else 334 + l.

Definition leap_days (y : Z) : Z := if InLeapYear y then 1 else 0.

Definition MonthFromTime (t : Z) : Z :=
  MonthFromDay (DayWithinYear t) (leap_days (YearFromTime t)).

Definition DateFromTime (t : Z) : Z :=
  DayWithinYear t - DaysBeforeMonth (MonthFromTime t) (leap_days (YearFromTime t)) + 1.

(** [MakeDay(year, month, date)]; [month] and [date] may be out of range. *)
Definition MakeDay (year month date : Z) : Z :=
  let ym := year + month / 12 in
  let mn := month mod 12 in
  DayFromYear ym + DaysBeforeMonth mn (leap_days ym) + date - 1.

Definition MakeDate (day time : Z) : Z := day * msPerDay + time.

Section WithOffset.
Variable LocalTZA : Z.

Definition LocalTime (t : Z) : Z := t + LocalTZA.
Definition UTC (t : Z) : Z := t - LocalTZA.

Definition getDate (t : Z) : Z := DateFromTime (LocalTime t).
Definition getFullYear (t : Z) : Z := YearFromTime (LocalTime t).

(** [date.setDate(dt)] *)
Definition setDate (t dt : Z) : Z :=
  let lt := LocalTime t in
  UTC (MakeDate (MakeDay (YearFromTime lt) (MonthFromTime lt) dt) (TimeWithinDay lt)).

(** [date.setFullYear(y)] *)
Definition setFullYear (t y : Z) : Z :=
  let lt := LocalTime t in
  UTC (MakeDate (MakeDay y (MonthFromTime lt) (DateFromTime lt)) (TimeWithinDay lt)).
End WithOffset.

End Date.

(** What the page reads from its environment: the clock behind [new Date()]
    and the offset of local time. *)
Record Host := { Date_now : Z; LocalTZA : Z }.

(** ** Time threshold (lines 102-112) *)

Definition getTimeThreshold (h : Host) (range : string) : Z :=
  let date := Date_now h in
  let tz := LocalTZA h in
  if String.eqb range "week" then Date.setDate tz date (Date.getDate tz date - 7)
  else if String.eqb range "month" then Date.setDate tz date (Date.getDate tz date - 30)
  else if String.eqb range "quarter" then Date.setDate tz date (Date.getDate tz date - 90)
  else if String.eqb range "year" then Date.setFullYear tz date (Date.getFullYear tz date - 1)
  else Date.setDate tz date (Date.getDate tz date - 30).

(** [new Date(d) >= threshold]; a missing date is [NaN] and compares false. *)
Definition date_ge (d : option Z) (threshold : Z) : bool :=
  match d with
  | Some t => threshold <=? t
  | None => false
  end.

(** ** Ordinary objects used as string-keyed counters

    [{} as Record<string, number>]: the own properties, kept in creation
    order.  [Object.entries] lists them in the order of
    OrdinaryOwnPropertyKeys: keys that are array indices first, by ascending
    numeric value, then the other keys in creation order.  Properties
    inherited from [Object.prototype] are not modelled. *)

Module Obj.

Definition t := list (string * Z).

Fixpoint get (o : t) (k : string) : option Z :=
  match o with
  | [] => None
  | (k', v) :: o' => if String.eqb k' k then Some v else get o' k
  end.

(** [o[k] = v]: an existing property keeps its place, a new one is added
    last. *)
Fixpoint set (o : t) (k : string) (v : Z) : t :=
  match o with
  | [] => [(k, v)]
  | (k', v') :: o' => if String.eqb k' k then (k', v) :: o' else (k', v') :: set o' k v
  end.

Definition digit (c : ascii) : option Z :=
  let n := Z.of_N (N_of_ascii c) in
  if (48 <=? n) && (n <=? 57) then Some (n - 48) else None.

Fixpoint digits (s : string) (acc : Z) : option Z :=
  match s with
  | EmptyString => Some acc
  | String c s' =>
      match digit c with
      | Some d => digits s' (10 * acc + d)
      | None => None
      end
  end.

(** The numeric value of a key that is an array index: a canonical decimal
    numeral (no sign, no leading zero) at most 2^32 - 2. *)
Definition array_index (k : string) : option Z :=
  match k with
  | EmptyString => None
  | String c rest =>
      if Ascii.eqb c "0" && negb (String.eqb rest "") then None
      else if (10 <? Z.of_nat (String.length k)) then None
      else match digits k 0 with
           | Some n => if n <=? 4294967294 then Some n else None
           | None => None
           end
  end.

Definition is_index (p : string * Z) : bool :=
  bool_decide (is_Some (array_index p.1)).

Definition index_of (p : string * Z) : Z := default 0 (array_index p.1).

Fixpoint insert_by_index (p : string * Z) (l : list (string * Z)) : list (string * Z) :=
  match l with
  | [] => [p]
  | q :: l' => if index_of p <=? index_of q then p :: l else q :: insert_by_index p l'
  end.

Definition ascending (l : list (string * Z)) : list (string * Z) :=
  fold_right insert_by_index [] l.

(** [Object.entries(o)] *)
Definition entries (o : t) : list (string * Z) :=
  ascending (List.filter is_index o) ++ List.filter (fun p => negb (is_index p)) o.

End Obj.

(** [Array.prototype.sort] is stable.  [sort_by cmp] is the stable sort for a
    comparator [cmp a b] whose sign says how [a] and [b] are ordered. *)
Section StableSort.
Context {A : Type} (cmp : A -> A -> Z).

Fixpoint sort_insert (x : A) (l : list A) : list A :=
  match l with
  | [] => [x]
  | y :: l' => if 0 <? cmp x y then y :: sort_insert x l' else x :: l
  end.

Definition sort_by (l : list A) : list A := fold_right sort_insert [] l.
End StableSort.

(** ** The [statistics] memo (lines 67-223) *)

Definition activeWorkers (workers : Workers) : Workers := List.filter is_actif workers.
Definition inactiveWorkers (workers : Workers) : Workers := List.filter is_inactif workers.
Definition exitedWorkers (workers : Workers) : Workers := List.filter is_exited workers.

Definition maleWorkers (workers : Workers) : Workers :=
  List.filter (fun w => String.eqb (Worker.sexe w) "homme") (activeWorkers workers).
Definition femaleWorkers (workers : Workers) : Workers :=
  List.filter (fun w => String.eqb (Worker.sexe w) "femme") (activeWorkers workers).

Definition maleRooms (rooms : Rooms) : Rooms :=
  List.filter (fun r => String.eqb (Room.genre r) "hommes") rooms.
Definition femaleRooms (rooms : Rooms) : Rooms :=
  List.filter (fun r => String.eqb (Room.genre r) "femmes") rooms.

Definition occupiedRooms (rooms : Rooms) : Rooms :=
  List.filter (fun r => 0 <? Room.occupantsActuels r) rooms.
Definition fullRooms (rooms : Rooms) : Rooms :=
  List.filter (fun r => Room.capaciteTotale r <=? Room.occupantsActuels r) rooms.
Definition emptyRooms (rooms : Rooms) : Rooms :=
  List.filter (fun r => Room.occupantsActuels r =? 0) rooms.

Definition totalCapacity (rooms : Rooms) : Z :=
  fold_left (fun sum room => sum + Room.capaciteTotale room) rooms 0.

Definition availablePlaces (workers : Workers) (rooms : Rooms) : Z :=
  totalCapacity rooms - occupiedPlaces workers.

Definition occupancyRate (workers : Workers) (rooms : Rooms) : Q :=
  if 0 <? totalCapacity rooms
  then (inject_Z (occupiedPlaces workers) / inject_Z (totalCapacity rooms)) * 100
  else 0.

(** *** Time-based analytics *)

Definition recentArrivals (h : Host) (workers : Workers) (timeRange : string) : Workers :=
  let threshold := getTimeThreshold h timeRange in
  List.filter (fun w => date_ge (Worker.dateEntree w) threshold && is_actif w) workers.

Definition recentExits (h : Host) (workers : Workers) (timeRange : string) : Workers :=
  let threshold := getTimeThreshold h timeRange in
  List.filter
    (fun w => bool_decide (is_Some (Worker.dateSortie w)) && date_ge (Worker.dateSortie w) threshold)
    (exitedWorkers workers).

(** *** Exit analysis *)

(** [worker.motif || 'Non spécifié'] *)
Definition reason (w : Worker.t) : string := JS.or_else (Worker.motif w) "Non spécifié".

(** [acc[reason] = (acc[reason] || 0) + 1] *)
Definition count_reason (acc : Obj.t) (w : Worker.t) : Obj.t :=
  Obj.set acc (reason w) (default 0 (Obj.get acc (reason w)) + 1).

Definition exitReasons (workers : Workers) : Obj.t :=
  fold_left count_reason (exitedWorkers workers) [].

(** The comparator [([,a], [,b]) => b - a]. *)
Definition by_count_desc (x y : string * Z) : Z := y.2 - x.2.

(** [Object.entries(exitReasons).sort(([,a], [,b]) => b - a)[0]] *)
Definition topExitReason (workers : Workers) : option (string * Z) :=
  head (sort_by by_count_desc (Obj.entries (exitReasons workers))).

(** *** Length of stay *)

(** The [filter] on both dates and the [map] to whole days, in one pass. *)
Definition staysWithDuration (workers : Workers) : list Z :=
  omap (fun w =>
          match Worker.dateEntree w, Worker.dateSortie w with
          | Some entryDate, Some exitDate =>
              Some (JS.Math_floor (inject_Z (exitDate - entryDate) / inject_Z (1000 * 60 * 60 * 24)))
          | _, _ => None
          end)
       (exitedWorkers workers).

Definition averageStayDuration (workers : Workers) : Z :=
  let stays := staysWithDuration workers in
  if 0 <? JS.len stays
  then JS.Math_round (inject_Z (JS.sum stays) / inject_Z (JS.len stays))
  else 0.

(** *** Age analysis *)

Definition ages (workers : Workers) : list Z := map Worker.age (activeWorkers workers).

Definition averageAge (workers : Workers) : Z :=
  let a := ages workers in
  if 0 <? JS.len a then JS.Math_round (inject_Z (JS.sum a) / inject_Z (JS.len a)) else 0.

Definition minAge (workers : Workers) : Z :=
  match ages workers with
  | [] => 0
  | a :: l => fold_left Z.min l a
  end.

Definition maxAge (workers : Workers) : Z :=
  match ages workers with
  | [] => 0
  | a :: l => fold_left Z.max l a
  end.

Definition age_between (lo hi : Z) (w : Worker.t) : bool :=
  (lo <=? Worker.age w) && (Worker.age w <=? hi).

Definition ageDistribution (workers : Workers) : list (string * Z) :=
  [ ("18-25", JS.len (List.filter (age_between 18 25) (activeWorkers workers)));
    ("26-35", JS.len (List.filter (age_between 26 35) (activeWorkers workers)));
    ("36-45", JS.len (List.filter (age_between 36 45) (activeWorkers workers)));
    ("46+", JS.len (List.filter (fun w => 46 <=? Worker.age w) (activeWorkers workers))) ].

(** *** Efficiency metrics and indicators *)

Definition turnoverRate (workers : Workers) : Q :=
  if 0 <? JS.len workers
  then (inject_Z (JS.len (exitedWorkers workers)) / inject_Z (JS.len workers)) * 100
  else 0.

Definition retentionRate (workers : Workers) : Q := 100 - turnoverRate workers.

Definition utilizationRate (workers : Workers) (rooms : Rooms) : Q := occupancyRate workers rooms.

Definition Qltb (x y : Q) : bool := negb (Qle_bool y x).

Definition isHighOccupancy (workers : Workers) (rooms : Rooms) : bool :=
  Qltb 85 (occupancyRate workers rooms).
Definition isLowOccupancy (workers : Workers) (rooms : Rooms) : bool :=
  Qltb (occupancyRate workers rooms) 50.
Definition hasRecentGrowth (h : Host) (workers : Workers) (timeRange : string) : bool :=
  JS.len (recentExits h workers timeRange) <? JS.len (recentArrivals h workers timeRange).
Definition balancedGender (workers : Workers) : bool :=
  Z.abs (JS.len (maleWorkers workers) - JS.len (femaleWorkers workers))
  <=? JS.Math_ceil (inject_Z (JS.len (activeWorkers workers)) * (2 # 10)).

(** *** The returned object *)

Module Snapshot.
Record t := mk {
  totalWorkers : Z;
  totalInactiveWorkers : Z;
  maleWorkers : Z;
  femaleWorkers : Z;
  totalRooms : Z;
  maleRooms : Z;
  femaleRooms : Z;
  occupiedRooms : Z;
  emptyRooms : Z;
  fullRooms : Z;
  totalCapacity : Z;
  occupiedPlaces : Z;
  availablePlaces : Z;
  occupancyRate : Q;
  recentArrivals : Z;
  recentExits : Z;
  netChange : Z;
  averageAge : Z;
  minAge : Z;
  maxAge : Z;
  ageDistribution : list (string * Z);
  averageStayDuration : Z;
  totalExitedWorkers : Z;
  exitReasons : Obj.t;
  topExitReason : string;
  topExitReasonCount : Z;
  turnoverRate : Q;
  retentionRate : Q;
  utilizationRate : Q;
  isHighOccupancy : bool;
  isLowOccupancy : bool;
  hasRecentGrowth : bool;
  balancedGender : bool;
  occupancyTrend : Q;
  workersTrend : Q;
}.
End Snapshot.

Definition statistics (h : Host) (workers : Workers) (rooms : Rooms) (timeRange : string)
  : Snapshot.t :=
  {| Snapshot.totalWorkers := JS.len (activeWorkers workers);
     Snapshot.totalInactiveWorkers := JS.len (inactiveWorkers workers);
     Snapshot.maleWorkers := JS.len (maleWorkers workers);
     Snapshot.femaleWorkers := JS.len (femaleWorkers workers);
     Snapshot.totalRooms := JS.len rooms;
     Snapshot.maleRooms := JS.len (maleRooms rooms);
     Snapshot.femaleRooms := JS.len (femaleRooms rooms);
     Snapshot.occupiedRooms := JS.len (occupiedRooms rooms);
     Snapshot.emptyRooms := JS.len (emptyRooms rooms);
     Snapshot.fullRooms := JS.len (fullRooms rooms);
     Snapshot.totalCapacity := totalCapacity rooms;
     Snapshot.occupiedPlaces := occupiedPlaces workers;
     Snapshot.availablePlaces := availablePlaces workers rooms;
     Snapshot.occupancyRate := JS.round2 (occupancyRate workers rooms);
     Snapshot.recentArrivals := JS.len (recentArrivals h workers timeRange);
     Snapshot.recentExits := JS.len (recentExits h workers timeRange);
     Snapshot.netChange :=
       JS.len (recentArrivals h workers timeRange) - JS.len (recentExits h workers timeRange);
     Snapshot.averageAge := averageAge workers;
     Snapshot.minAge := minAge workers;
     Snapshot.maxAge := maxAge workers;
     Snapshot.ageDistribution := ageDistribution workers;
     Snapshot.averageStayDuration := averageStayDuration workers;
     Snapshot.totalExitedWorkers := JS.len (exitedWorkers workers);
     Snapshot.exitReasons := exitReasons workers;
     Snapshot.topExitReason :=
       match topExitReason workers with Some top => top.1 | None => "Aucune" end;
     Snapshot.topExitReasonCount :=
       match topExitReason workers with Some top => top.2 | None => 0 end;
     Snapshot.turnoverRate := JS.round2 (turnoverRate workers);
     Snapshot.retentionRate := JS.round2 (retentionRate workers);
     Snapshot.utilizationRate := JS.round2 (utilizationRate workers rooms);
     Snapshot.isHighOccupancy := isHighOccupancy workers rooms;
     Snapshot.isLowOccupancy := isLowOccupancy workers rooms;
     Snapshot.hasRecentGrowth := hasRecentGrowth h workers timeRange;
     Snapshot.balancedGender := balancedGender workers;
     Snapshot.occupancyTrend := if hasRecentGrowth h workers timeRange then 85 # 10 else - (32 # 10);
     Snapshot.workersTrend :=
       if 0 <? JS.len (recentArrivals h workers timeRange) then 121 # 10 else - (54 # 10);
  |}.

(** * Occupancy reconciliation ([@/utils/syncUtils], not among the sources) *)

Module Sync.

(** Modelled from the spec: the Room Key of section 3, the tuple
    (farmId, roomNumber, genderRestriction).  [forceSyncRoomOccupancy] and
    [getOccupancySummary] are imported by the page but their file is
    missing; what follows is section 4.1 put into definitions. *)
Definition RoomKey : Type := string * string * string.

(** Modelled from the spec: the key of a worker (4.1 step 1), from its
    farm, its assigned room and the restriction that goes with its sex;
    only active workers with a non-empty room have one. *)
Definition worker_key (w : Worker.t) : option RoomKey :=
  if is_housed w
  then Some (Worker.fermeId w, default "" (Worker.chambre w), workerGenderType w)
  else None.

(** Modelled from the spec: the key of a room. *)
Definition room_key (r : Room.t) : RoomKey :=
  (Room.fermeId r, Room.numero r, Room.genre r).

(** Modelled from the spec: 4.1 step 1, the mapping from Room Key to the
    number of workers that hold it. *)
Definition count_key (m : gmap RoomKey Z) (w : Worker.t) : gmap RoomKey Z :=
  match worker_key w with
  | Some k => <[k := default 0 (m !! k) + 1]> m
  | None => m
  end.

(** Modelled from the spec: the scan of all workers of 4.1 step 1. *)
Definition derived_map (workers : Workers) : gmap RoomKey Z :=
  fold_left count_key workers ∅.

(** Modelled from the spec: 4.1 step 2, the derived count of a room, 0 when
    its key is absent from the mapping. *)
Definition derivedCount (workers : Workers) (r : Room.t) : Z :=
  default 0 (derived_map workers !! room_key r).

(** Modelled from the spec: 4.1 step 3. *)
Definition inconsistent (workers : Workers) (r : Room.t) : bool :=
  negb (Room.occupantsActuels r =? derivedCount workers r).

(** An entry of [inconsistenciesFound], with the fields the page displays
    (lines 455-461). *)
Record Inconsistency := {
  roomNumber : string;
  oldOccupants : Z;
  newOccupants : Z;
  workerNames : list string;
}.

(** The result of a run, with the fields the page displays (lines 434-449). *)
Record SyncResult := {
  totalRoomsChecked : Z;
  roomsUpdated : Z;
  inconsistenciesFound : list Inconsistency;
}.

(** Modelled from the spec: the names of the workers attributed to a room. *)
Definition names_in (workers : Workers) (r : Room.t) : list string :=
  map Worker.nom
    (List.filter (fun w => bool_decide (worker_key w = Some (room_key r))) workers).

(** Modelled from the spec: the entry appended for an inconsistent room:
    its number, the old value, the new value and the workers' names. *)
Definition report (workers : Workers) (r : Room.t) : Inconsistency :=
  {| roomNumber := Room.numero r;
     oldOccupants := Room.occupantsActuels r;
     newOccupants := derivedCount workers r;
     workerNames := names_in workers r |}.

(** Modelled from the spec: the write [UpdateRoomOccupancy(roomId, newCount)]
    applied to the room record; every write is taken to succeed. *)
Definition UpdateRoomOccupancy (r : Room.t) (newCount : Z) : Room.t :=
  Room.mk (Room.id r) (Room.fermeId r) (Room.numero r) (Room.genre r)
    (Room.capaciteTotale r) newCount.

(** Modelled from the spec: an inconsistent room gets the derived count, a
    consistent one is left untouched. *)
Definition repair (workers : Workers) (r : Room.t) : Room.t :=
  if inconsistent workers r then UpdateRoomOccupancy r (derivedCount workers r) else r.

(** Modelled from the spec: the repair operation [Sync] of 4.1.  It returns
    its result and the room collection as the store holds it afterwards. *)
Definition Reconcile (workers : Workers) (rooms : Rooms) : SyncResult * Rooms :=
  let found := List.filter (inconsistent workers) rooms in
  ({| totalRoomsChecked := JS.len rooms;
      roomsUpdated := JS.len found;
      inconsistenciesFound := map (report workers) found |},
   map (repair workers) rooms).

(** Modelled from the spec: [hasDiscrepancy] of the summary report. *)
Definition hasDiscrepancy (workers : Workers) (rooms : Rooms) : bool :=
  existsb (inconsistent workers) rooms.

End Sync.

(** * Definitions used in the statements *)

(** ** Occupied places *)

(** The workers counted under a key of [workerRoomMap], and those that hold a
    Room Key of the reconciler. *)
Definition has_key (k : string) (w : Worker.t) : bool := String.eqb (roomKey w) k.

Definition holds_key (k : Sync.RoomKey) (w : Worker.t) : bool :=
  bool_decide (Sync.worker_key w = Some k).

(** ** Age histogram *)

(** The bucket of an integer age, as the specification words it: four
    ranges closed at both ends but the last, and nothing below 18. *)
Definition age_bucket (a : Z) : option string :=
  if a <? 18 then None
  else if a <=? 25 then Some "18-25"
  else if a <=? 35 then Some "26-35"
  else if a <=? 45 then Some "36-45"
  else Some "46+".

Definition in_bucket (label : string) (w : Worker.t) : bool :=
  bool_decide (age_bucket (Worker.age w) = Some label).

Definition under_18 (w : Worker.t) : bool := Worker.age w <? 18.

(** ** Length of stay *)

Definition whole_days (entryDate exitDate : Z) : Z := (exitDate - entryDate) / Date.msPerDay.

(** The entry and exit instants of the exited workers that have both. *)
Definition completed_stays (workers : Workers) : list (Z * Z) :=
  omap (fun w =>
          match Worker.dateEntree w, Worker.dateSortie w with
          | Some entryDate, Some exitDate => Some (entryDate, exitDate)
          | _, _ => None
          end)
       (List.filter is_exited workers).

(** ** Rates *)


(** Lines 159, 160, 209 and 210 on binary64 numbers, operation by operation,
    for scopes of fewer than 2^52 workers. *)
Module Binary64.
Import PrimFloat.
Local Open Scope float_scope.

(** [Math.floor] on a number between 0 and 2^52. *)
Definition floor (x : float) : float :=
  let r := (x + 4503599627370496) - 4503599627370496 in
  if x <? r then r - 1 else r.

(** [Math.round] on a number between 0 and 2^52. *)
Definition Math_round (x : float) : float :=
  let f := floor x in
  if (x - f) <? 0.5 then f else f + 1.

Definition round2 (x : float) : float := Math_round (x * 100) / 100.

Definition turnoverRate (exited workers : float) : float := (exited / workers) * 100.
Definition retentionRate (exited workers : float) : float := 100 - turnoverRate exited workers.

(** One exited worker out of 32: are the rates 3.125 and 96.875, the
    returned figures 3.13 and 96.88, their sum 100, their sum above 100? *)
Definition one_in_32 : list bool :=
  let t := turnoverRate 1 32 in
  let r := retentionRate 1 32 in
  [ t =? 3.125; r =? 96.875; round2 t =? 313 / 100; round2 r =? 9688 / 100;
    round2 r + round2 t =? 100; 100 <? round2 r + round2 t ].

End Binary64.

(** ** Time window *)

(** The number of days [date.setFullYear(date.getFullYear() - 1)] goes back:
    366 when a 29 February lies in between, 365 otherwise. *)
Definition days_of_year_back (tz t : Z) : Z :=
  let lt := Date.LocalTime tz t in
  365 + (if Date.MonthFromTime lt <? 2
         then Date.leap_days (Date.YearFromTime lt - 1)
         else Date.leap_days (Date.YearFromTime lt)).

(** The length of each range in days, as the selector of the page labels
    them: 7, 30, 90 and 365 days, 30 being the default. *)
Definition range_days (timeRange : string) : Z :=
  if String.eqb timeRange "week" then 7
  else if String.eqb timeRange "month" then 30
  else if String.eqb timeRange "quarter" then 90
  else if String.eqb timeRange "year" then 365
  else 30.

Definition cutoff_by_days (now : Z) (timeRange : string) : Z :=
  now - range_days timeRange * Date.msPerDay.


(** ** Exit reasons *)









(** ** Sample data *)

(** A worker and a room with every field at a neutral value. *)
Definition worker0 : Worker.t :=
  Worker.mk "" "f1" "actif" "homme" 30 None None None None.
Definition room0 : Room.t := Room.mk "r" "f1" "1" "hommes" 0 0.

(** Two stays of 10 and 3 whole days, a worker without entry date and an
    active worker. *)
Definition stay_example : Workers :=
  [ Worker.mk "a" "f1" "inactif" "homme" 30 (Some 0) (Some (10 * 86400000 + 5)) None None;
    Worker.mk "b" "f1" "inactif" "femme" 41 (Some 86400000) (Some (4 * 86400000)) None None;
    Worker.mk "c" "f1" "inactif" "femme" 41 None (Some (4 * 86400000)) None None;
    Worker.mk "d" "f1" "actif" "femme" 41 (Some 0) (Some (4 * 86400000)) None None ].

(** Thirty-one active workers and one who left: a turnover of 3.125 %. *)
Definition one_in_32 : Workers :=
  replicate 31 worker0
  ++ [Worker.mk "z" "f1" "inactif" "homme" 30 (Some 0) (Some 86400000) None None].




Definition exited_with (motif : option string) : Worker.t :=
  Worker.mk "a" "f1" "inactif" "homme" 30 (Some 0) (Some 86400000) motif None.




(** * The rest of the page *)

(** ** Visibility scope (lines 57-64) *)

(** What [useAuth] gives: the farm of the user, if any, and the role. *)
Record Auth := { user_fermeId : option string; isSuperAdmin : bool }.

(** [x.fermeId === user?.fermeId] *)
Definition same_ferme (fermeId : string) (user : option string) : bool :=
  match user with
  | Some f => String.eqb fermeId f
  | None => false
  end.

(** The [workers] of line 58. *)
Definition scoped_workers (auth : Auth) (selectedFerme : string) (allWorkers : Workers)
  : Workers :=
  if String.eqb selectedFerme "all"
  then (if isSuperAdmin auth then allWorkers
        else List.filter (fun w => same_ferme (Worker.fermeId w) (user_fermeId auth)) allWorkers)
  else List.filter (fun w => String.eqb (Worker.fermeId w) selectedFerme) allWorkers.

(** The [rooms] of line 62. *)
Definition scoped_rooms (auth : Auth) (selectedFerme : string) (allRooms : Rooms) : Rooms :=
  if String.eqb selectedFerme "all"
  then (if isSuperAdmin auth then allRooms
        else List.filter (fun r => same_ferme (Room.fermeId r) (user_fermeId auth)) allRooms)
  else List.filter (fun r => String.eqb (Room.fermeId r) selectedFerme) allRooms.

(** ** Network errors (lines 301-306) *)

(** [a || b] on two possibly missing strings. *)
Definition or_string (a b : option string) : option string :=
  if JS.truthy a then a else b.

Definition networkError (fermesError workersError roomsError : option string) : option string :=
  or_string (or_string fermesError workersError) roomsError.

(** [s.includes(t)] *)
Fixpoint includes (s t : string) : bool :=
  String.prefix t s
  || match s with
     | EmptyString => false
     | String _ s' => includes s' t
     end.

Definition hasNetworkError (fermesError workersError roomsError : option string) : bool :=
  let networkError := networkError fermesError workersError roomsError in
  JS.truthy networkError
  && (includes (default "" networkError) "fetch"
      || includes (default "" networkError) "Failed to fetch"
      || includes (default "" networkError) "TypeError").

(** ** What the cards derive from the snapshot *)

(** [{ value: Math.abs(trend), isPositive: trend > 0 }] (lines 541 and 554) *)
Definition trend_of (trend : Q) : Q * bool := (Qabs trend, Qltb 0 trend).

(** The gradient of the occupancy card (lines 549-553). *)
Definition occupancyGradient (s : Snapshot.t) : string :=
  if Snapshot.isHighOccupancy s then "bg-gradient-to-br from-red-500 to-rose-600"
  else if Snapshot.isLowOccupancy s then "bg-gradient-to-br from-orange-500 to-amber-600"
  else "bg-gradient-to-br from-blue-500 to-indigo-600".

(** The word after the occupancy rate (line 663). *)
Definition occupancyStatus (s : Snapshot.t) : string :=
  if Snapshot.isHighOccupancy s then "Saturation"
  else if Snapshot.isLowOccupancy s then "Sous-utilisé"
  else "Optimal".

(** The gradient of the retention card (lines 578-582). *)
Definition retentionGradient (s : Snapshot.t) : string :=
  if Qltb 85 (Snapshot.retentionRate s) then "bg-gradient-to-br from-green-500 to-emerald-600"
  else if Qltb 70 (Snapshot.retentionRate s) then "bg-gradient-to-br from-blue-500 to-indigo-600"
  else "bg-gradient-to-br from-red-500 to-rose-600".






(** ** The list of exit reasons (lines 892-909) *)



(** [s.replace(from, to)] with a one-character pattern: the first occurrence
    only. *)
Fixpoint replace_first (from to : ascii) (s : string) : string :=
  match s with
  | EmptyString => EmptyString
  | String c s' => if Ascii.eqb c from then String to s' else String c (replace_first from to s')
  end.

(** [reason.replace('_', ' ')] (line 898) *)
Definition reasonLabel (reason : string) : string := replace_first "_" " " reason.


(** ** The export (lines 226-244) *)



(** ** Definitions used in the further statements *)

(** The farm selector is rendered for a super admin only (lines 486-503) and
    offers 'all' and the farms: the values [selectedFerme] can take, from the
    initial 'all', in a session whose [auth] does not change. *)
Inductive reachable_selection (auth : Auth) (fermes : list string) : string -> Prop :=
  | selection_initial : reachable_selection auth fermes "all"
  | selection_all (previous : string) :
      isSuperAdmin auth = true -> reachable_selection auth fermes previous ->
      reachable_selection auth fermes "all"
  | selection_ferme (previous ferme : string) :
      isSuperAdmin auth = true -> reachable_selection auth fermes previous ->
      ferme ∈ fermes ->
      reachable_selection auth fermes ferme.

Fixpoint count_char (c : ascii) (s : string) : Z :=
  match s with
  | EmptyString => 0
  | String a s' => (if Ascii.eqb a c then 1 else 0) + count_char c s'
  end.

Definition is_network_message (e : string) : bool :=
  includes e "fetch" || includes e "TypeError".

(** What the page computes for a selection: the snapshot of the scope. *)
Definition view (h : Host) (auth : Auth) (allWorkers : Workers) (allRooms : Rooms)
    (timeRange selectedFerme : string) : Snapshot.t :=
  statistics h (scoped_workers auth selectedFerme allWorkers)
    (scoped_rooms auth selectedFerme allRooms) timeRange.

(** * Properties *)

(** ** Sums and lengths *)

Lemma sum_fold_left (l : list Z) (a : Z) : fold_left Z.add l a = a + JS.sum l.
Proof.
  unfold JS.sum. revert a.
  induction l as [|x l IH]; intros a; cbn [fold_left]; [lia|].
  rewrite (IH (a + x)), (IH (0 + x)). lia.
Qed.

Lemma sum_cons (x : Z) (l : list Z) : JS.sum (x :: l) = x + JS.sum l.
Proof. unfold JS.sum at 1. simpl. apply sum_fold_left. Qed.

Lemma sum_nil : JS.sum [] = 0.
Proof. reflexivity. Qed.

Lemma sum_Permutation (l1 l2 : list Z) : l1 ≡ₚ l2 -> JS.sum l1 = JS.sum l2.
Proof.
  induction 1 as [|x l l' _ IH|x y l|l l' l'' _ IH1 _ IH2];
    rewrite ?sum_cons; lia.
Qed.

Lemma len_cons {A} (x : A) (l : list A) : JS.len (x :: l) = JS.len l + 1.
Proof. unfold JS.len. simpl length. lia. Qed.

Lemma len_nonneg {A} (l : list A) : 0 <= JS.len l.
Proof. unfold JS.len. lia. Qed.

Lemma len_filter_cons {A} (f : A -> bool) (x : A) (l : list A) :
  JS.len (List.filter f (x :: l)) = JS.len (List.filter f l) + (if f x then 1 else 0).
Proof. simpl. destruct (f x); rewrite ?len_cons; lia. Qed.

(** ** Occupied places *)

Lemma filter_ext_len {A} (f g : A -> bool) (l : list A) :
  (forall x, f x = g x) -> JS.len (List.filter f l) = JS.len (List.filter g l).
Proof. intros Hfg. by rewrite (List.filter_ext f g Hfg). Qed.

Section MapValuesSum.
Context `{Countable K}.

Lemma map_values_sum_empty : map_values_sum (∅ : gmap K Z) = 0.
Proof. unfold map_values_sum. rewrite map_to_list_empty. reflexivity. Qed.

Lemma map_values_sum_insert_fresh (m : gmap K Z) (k : K) (v : Z) :
  m !! k = None -> map_values_sum (<[k := v]> m) = v + map_values_sum m.
Proof.
  intros Hk. unfold map_values_sum.
  rewrite (sum_Permutation _ (snd <$> ((k, v) :: map_to_list m))).
  - rewrite fmap_cons. apply sum_cons.
  - apply fmap_Permutation. by apply map_to_list_insert.
Qed.

Lemma map_values_sum_insert (m : gmap K Z) (k : K) (v : Z) :
  map_values_sum (<[k := v]> m) = map_values_sum m - default 0 (m !! k) + v.
Proof.
  destruct (m !! k) as [old|] eqn:Hk; simpl.
  - rewrite <- (insert_delete_id m k old Hk) at 2.
    rewrite <- (insert_delete_eq m k v).
    rewrite !map_values_sum_insert_fresh by apply lookup_delete_eq. lia.
  - rewrite map_values_sum_insert_fresh by done. lia.
Qed.

End MapValuesSum.

Lemma map_values_sum_count_worker (m : gmap string Z) (w : Worker.t) :
  map_values_sum (count_worker m w) = map_values_sum m + 1.
Proof. unfold count_worker. rewrite map_values_sum_insert. lia. Qed.

Lemma map_values_sum_fold (l : Workers) (m : gmap string Z) :
  map_values_sum (fold_left count_worker l m) = map_values_sum m + JS.len l.
Proof.
  revert m. induction l as [|w l IH]; intros m; simpl fold_left.
  - unfold JS.len. simpl. lia.
  - rewrite IH, map_values_sum_count_worker, len_cons. lia.
Qed.

Lemma occupiedPlaces_count (workers : Workers) :
  occupiedPlaces workers = JS.len (List.filter is_housed workers).
Proof.
  unfold occupiedPlaces, workerRoomMap.
  rewrite map_values_sum_fold, map_values_sum_empty. lia.
Qed.

Lemma count_worker_lookup (m : gmap string Z) (w : Worker.t) (k : string) :
  default 0 (count_worker m w !! k) = default 0 (m !! k) + (if has_key k w then 1 else 0).
Proof.
  unfold count_worker, has_key.
  destruct (String.eqb_spec (roomKey w) k) as [->|Hne].
  - by rewrite lookup_insert_eq.
  - rewrite lookup_insert_ne by done. lia.
Qed.

Lemma workerRoomMap_fold_lookup (l : Workers) (m : gmap string Z) (k : string) :
  default 0 (fold_left count_worker l m !! k)
  = default 0 (m !! k) + JS.len (List.filter (has_key k) l).
Proof.
  revert m. induction l as [|w l IH]; intros m; simpl fold_left.
  - unfold JS.len. simpl. lia.
  - rewrite IH, count_worker_lookup, len_filter_cons. lia.
Qed.

Lemma filter_filter {A} (f g : A -> bool) (l : list A) :
  List.filter f (List.filter g l) = List.filter (fun x => g x && f x) l.
Proof.
  induction l as [|x l IH]; simpl; [done|].
  destruct (g x); simpl; [destruct (f x)|]; by rewrite IH.
Qed.

(** The mapping of the reconciler, keyed by (farm, room number, restriction). *)
Lemma count_key_lookup (m : gmap Sync.RoomKey Z) (w : Worker.t) (k : Sync.RoomKey) :
  default 0 (Sync.count_key m w !! k) = default 0 (m !! k) + (if holds_key k w then 1 else 0).
Proof.
  unfold Sync.count_key, holds_key. destruct (Sync.worker_key w) as [k'|].
  - destruct (decide (k' = k)) as [->|Hne].
    + rewrite lookup_insert_eq, bool_decide_true by done. reflexivity.
    + rewrite lookup_insert_ne, bool_decide_false by congruence. lia.
  - rewrite bool_decide_false by done. lia.
Qed.

Lemma derived_map_fold_lookup (l : Workers) (m : gmap Sync.RoomKey Z) (k : Sync.RoomKey) :
  default 0 (fold_left Sync.count_key l m !! k)
  = default 0 (m !! k) + JS.len (List.filter (holds_key k) l).
Proof.
  revert m. induction l as [|w l IH]; intros m; cbn [fold_left].
  - unfold JS.len. simpl. lia.
  - rewrite IH, count_key_lookup, len_filter_cons. lia.
Qed.

(** The derived count of a room is the number of active workers assigned to
    its number, in its farm, whose sex goes with its restriction. *)
Lemma derivedCount_count (workers : Workers) (r : Room.t) :
  Sync.derivedCount workers r
  = JS.len (List.filter (holds_key (Sync.room_key r)) workers).
Proof.
  unfold Sync.derivedCount, Sync.derived_map.
  rewrite derived_map_fold_lookup, lookup_empty. simpl. lia.
Qed.

Lemma count_key_sum (m : gmap Sync.RoomKey Z) (w : Worker.t) :
  map_values_sum (Sync.count_key m w) = map_values_sum m + (if is_housed w then 1 else 0).
Proof.
  unfold Sync.count_key, Sync.worker_key. destruct (is_housed w); [|lia].
  rewrite map_values_sum_insert. lia.
Qed.

Lemma derived_map_fold_sum (l : Workers) (m : gmap Sync.RoomKey Z) :
  map_values_sum (fold_left Sync.count_key l m)
  = map_values_sum m + JS.len (List.filter is_housed l).
Proof.
  revert m. induction l as [|w l IH]; intros m; cbn [fold_left].
  - unfold JS.len. simpl. lia.
  - rewrite IH, count_key_sum, len_filter_cons. lia.
Qed.

(** C1. [occupiedPlaces] is derived from the workers alone: the map built at
    lines 86-92 holds, under each key, the number of active workers with a
    room whose key it is; the key is made of the farm, the room and 'hommes'
    for a man, 'femmes' for a woman; the sum returned at line 94, which is the
    snapshot's [occupiedPlaces], is the number of active workers with a
    non-empty room, and also the total of the reconciler's mapping from Room
    Key to count; and it is the same whatever the room collection (so
    whatever the rooms' stored [occupantsActuels]). *)
Theorem occupiedPlaces_worker_derived
    (h : Host) (workers : Workers) (rooms rooms' : Rooms) (timeRange : string) :
  (forall k : string,
      default 0 (workerRoomMap workers !! k)
      = JS.len (List.filter (fun w => is_housed w && has_key k w) workers))
  /\ (forall w : Worker.t,
        roomKey w = Worker.fermeId w +:+ "-" +:+ default "" (Worker.chambre w) +:+ "-"
                    +:+ (if String.eqb (Worker.sexe w) "homme" then "hommes" else "femmes"))
  /\ (forall n f st a de ds mo c,
        workerGenderType (Worker.mk n f st "homme" a de ds mo c) = "hommes"
        /\ workerGenderType (Worker.mk n f st "femme" a de ds mo c) = "femmes")
  /\ Snapshot.occupiedPlaces (statistics h workers rooms timeRange)
     = JS.len (List.filter (fun w => is_actif w && JS.truthy (Worker.chambre w)) workers)
  /\ Snapshot.occupiedPlaces (statistics h workers rooms timeRange)
     = map_values_sum (Sync.derived_map workers)
  /\ (forall k : Sync.RoomKey,
        default 0 (Sync.derived_map workers !! k)
        = JS.len (List.filter
                    (fun w => is_actif w && JS.truthy (Worker.chambre w)
                              && bool_decide ((Worker.fermeId w, default "" (Worker.chambre w),
                                               workerGenderType w) = k))
                    workers))
  /\ Snapshot.occupiedPlaces (statistics h workers rooms' timeRange)
     = Snapshot.occupiedPlaces (statistics h workers rooms timeRange).
Proof.
  repeat apply conj; try reflexivity.
  - intros k. unfold workerRoomMap.
    rewrite workerRoomMap_fold_lookup, lookup_empty, filter_filter. simpl. lia.
  - intros; split; reflexivity.
  - simpl. apply occupiedPlaces_count.
  - simpl. rewrite occupiedPlaces_count. unfold Sync.derived_map.
    rewrite derived_map_fold_sum, map_values_sum_empty. lia.
  - intros k. unfold Sync.derived_map.
    rewrite derived_map_fold_lookup, lookup_empty. simpl.
    rewrite Z.add_0_l. apply filter_ext_len. intros w.
    unfold holds_key, Sync.worker_key, is_housed.
    destruct (is_actif w && JS.truthy (Worker.chambre w)); simpl.
    + apply bool_decide_ext. split; [by intros [= <-] | by intros <-].
    + reflexivity.
Qed.

(** ** Capacity metrics *)

Lemma totalCapacity_fold (rooms : Rooms) (a : Z) :
  fold_left (fun sum room => sum + Room.capaciteTotale room) rooms a
  = a + JS.sum (map Room.capaciteTotale rooms).
Proof.
  revert a. induction rooms as [|r rooms IH]; intros a; cbn [fold_left map].
  - unfold JS.sum. simpl. lia.
  - rewrite IH, sum_cons. lia.
Qed.

Lemma totalCapacity_cons (r : Room.t) (rooms : Rooms) :
  totalCapacity (r :: rooms) = Room.capaciteTotale r + totalCapacity rooms.
Proof.
  unfold totalCapacity. cbn [fold_left]. rewrite !totalCapacity_fold. lia.
Qed.


(** C9. [availablePlaces] is [totalCapacity - occupiedPlaces], not clamped:
    the three returned figures always satisfy
    [occupiedPlaces + availablePlaces = totalCapacity], and [availablePlaces]
    is negative exactly when more places are occupied than exist. *)
Theorem availablePlaces_conservation
    (h : Host) (workers : Workers) (rooms : Rooms) (timeRange : string) :
  let s := statistics h workers rooms timeRange in
  Snapshot.availablePlaces s = Snapshot.totalCapacity s - Snapshot.occupiedPlaces s
  /\ Snapshot.occupiedPlaces s + Snapshot.availablePlaces s = Snapshot.totalCapacity s
  /\ (Snapshot.availablePlaces s <? 0) = (Snapshot.totalCapacity s <? Snapshot.occupiedPlaces s)
  /\ Snapshot.totalCapacity s = JS.sum (map Room.capaciteTotale rooms)
  /\ Snapshot.occupiedPlaces s = JS.len (List.filter is_housed workers).
Proof.
  cbn zeta. cbn [statistics Snapshot.availablePlaces Snapshot.totalCapacity
                  Snapshot.occupiedPlaces].
  unfold availablePlaces. repeat split; try lia.
  - unfold totalCapacity. rewrite totalCapacity_fold. lia.
  - apply occupiedPlaces_count.
Qed.

(** An overbooked dormitory: three housed workers, one room of two places. *)
Example availablePlaces_overbooked :
  let housed := Worker.mk "a" "f1" "actif" "homme" 30 None None None (Some "12") in
  let s := statistics {| Date_now := 0; LocalTZA := 0 |} [housed; housed; housed]
             [Room.mk "r1" "f1" "12" "hommes" 2 2] "month" in
  Snapshot.totalCapacity s = 2 /\ Snapshot.occupiedPlaces s = 3
  /\ Snapshot.availablePlaces s = -1.
Proof. vm_compute. repeat split. Qed.



(** ** Age histogram *)

Lemma in_bucket_18_25 (w : Worker.t) : age_between 18 25 w = in_bucket "18-25" w.
Proof.
  unfold age_between, in_bucket, age_bucket.
  repeat case_match; case_bool_decide; (congruence || lia).
Qed.

Lemma in_bucket_26_35 (w : Worker.t) : age_between 26 35 w = in_bucket "26-35" w.
Proof.
  unfold age_between, in_bucket, age_bucket.
  repeat case_match; case_bool_decide; (congruence || lia).
Qed.

Lemma in_bucket_36_45 (w : Worker.t) : age_between 36 45 w = in_bucket "36-45" w.
Proof.
  unfold age_between, in_bucket, age_bucket.
  repeat case_match; case_bool_decide; (congruence || lia).
Qed.

Lemma in_bucket_46_plus (w : Worker.t) : (46 <=? Worker.age w) = in_bucket "46+" w.
Proof.
  unfold in_bucket, age_bucket.
  repeat case_match; case_bool_decide; (congruence || lia).
Qed.

Lemma age_partition (l : Workers) :
  JS.len (List.filter (age_between 18 25) l) + JS.len (List.filter (age_between 26 35) l)
  + JS.len (List.filter (age_between 36 45) l)
  + JS.len (List.filter (fun w => 46 <=? Worker.age w) l)
  + JS.len (List.filter under_18 l)
  = JS.len l.
Proof.
  induction l as [|w l IH]; [reflexivity|].
  rewrite !len_filter_cons, len_cons.
  unfold age_between, under_18 in *.
  repeat case_match; lia.
Qed.

(** C8. The age histogram has exactly the four buckets 18-25, 26-35, 36-45
    and 46+, in that order; each counts the active workers whose age falls in
    its range, both ends included, the last one open above; an age below 18
    falls in no bucket; and the four counts together with the number of
    active workers under 18 make up the number of active workers. *)
Theorem ageDistribution_complete
    (h : Host) (workers : Workers) (rooms : Rooms) (timeRange : string) :
  let s := statistics h workers rooms timeRange in
  let count label := JS.len (List.filter (in_bucket label) (activeWorkers workers)) in
  Snapshot.ageDistribution s
  = [("18-25", count "18-25"); ("26-35", count "26-35");
     ("36-45", count "36-45"); ("46+", count "46+")]
  /\ (forall (w : Worker.t) (label : string),
        under_18 w = true -> in_bucket label w = false)
  /\ JS.sum (map snd (Snapshot.ageDistribution s))
     + JS.len (List.filter under_18 (activeWorkers workers))
     = Snapshot.totalWorkers s
  /\ Snapshot.totalWorkers s = JS.len (List.filter is_actif workers).
Proof.
  cbn zeta. cbn [statistics Snapshot.ageDistribution Snapshot.totalWorkers].
  repeat split.
  - unfold ageDistribution.
    rewrite (filter_ext_len _ _ _ in_bucket_18_25), (filter_ext_len _ _ _ in_bucket_26_35),
      (filter_ext_len _ _ _ in_bucket_36_45), (filter_ext_len _ _ _ in_bucket_46_plus).
    reflexivity.
  - intros w label Hw. unfold under_18 in Hw. unfold in_bucket, age_bucket.
    rewrite Hw. by case_bool_decide.
  - unfold ageDistribution. cbn [map snd]. rewrite !sum_cons, sum_nil.
    pose proof (age_partition (activeWorkers workers)). lia.
Qed.

Lemma ageDistribution_complete_witness :
  in_bucket "18-25" (Worker.mk "a" "f1" "actif" "homme" 17 None None None None) = false.
Proof.
  pose (h := {| Date_now := 0; LocalTZA := 0 |}).
  apply (proj1 (proj2 (ageDistribution_complete h [] [] "month"))).
  reflexivity.
Defined.

Example ageDistribution_boundaries :
  map (fun a => age_bucket a) [17; 18; 25; 26; 35; 36; 45; 46; 90]
  = [None; Some "18-25"; Some "18-25"; Some "26-35"; Some "26-35";
     Some "36-45"; Some "36-45"; Some "46+"; Some "46+"]
  /\ ageDistribution
       (map (fun a => Worker.mk "a" "f1" "actif" "homme" a None None None None)
            [17; 18; 25; 26; 35; 36; 45; 46; 90])
     = [("18-25", 2); ("26-35", 2); ("36-45", 2); ("46+", 2)].
Proof. split; reflexivity. Qed.

(** ** Rounding *)

Lemma Math_floor_div (a b : Z) :
  0 < b -> JS.Math_floor (inject_Z a / inject_Z b) = a / b.
Proof.
  intros Hb. destruct b as [|p|p]; try lia.
  unfold JS.Math_floor. rewrite (Qfloor_comp _ (a # p)); [reflexivity|].
  symmetry. apply Qmake_Qdiv.
Qed.

Lemma Math_round_bounds (x : Q) :
  (inject_Z (JS.Math_round x) - (1 # 2) <= x /\ x < inject_Z (JS.Math_round x) + (1 # 2))%Q.
Proof.
  unfold JS.Math_round.
  pose proof (Qfloor_le (x + (1 # 2))) as Hle.
  pose proof (Qlt_floor (x + (1 # 2))) as Hlt.
  rewrite inject_Z_plus in Hlt. change (inject_Z 1) with 1%Q in Hlt. split; lra.
Qed.

Lemma Math_round_unique (x : Q) (z : Z) :
  (inject_Z z - (1 # 2) <= x)%Q -> (x < inject_Z z + (1 # 2))%Q -> JS.Math_round x = z.
Proof.
  intros Hlo Hhi. destruct (Math_round_bounds x) as [Hlo' Hhi'].
  assert (inject_Z (JS.Math_round x) < inject_Z z + 1)%Q as H1 by lra.
  assert (inject_Z z < inject_Z (JS.Math_round x) + 1)%Q as H2 by lra.
  change 1%Q with (inject_Z 1) in H1, H2.
  rewrite <- inject_Z_plus, <- Zlt_Qlt in H1, H2. lia.
Qed.


Lemma Math_round_inject_Z (z : Z) : JS.Math_round (inject_Z z) = z.
Proof. apply Math_round_unique; lra. Qed.

(** ** Length of stay *)

Lemma staysWithDuration_whole_days (workers : Workers) :
  staysWithDuration workers = map (fun p => whole_days p.1 p.2) (completed_stays workers).
Proof.
  unfold staysWithDuration, completed_stays, exitedWorkers.
  induction (List.filter is_exited workers) as [|w l IH]; [reflexivity|].
  cbn [omap list_omap].
  destruct (Worker.dateEntree w) as [e|], (Worker.dateSortie w) as [x|];
    cbn [map]; try exact IH.
  f_equal; [|exact IH].
  unfold whole_days. apply (Math_floor_div (x - e) 86400000). lia.
Qed.

(** C7. [averageStayDuration] ranges over the exited workers that have both
    dates; each stay is [exitDate - entryDate] in whole days; the result is
    the mean of the stays rounded to the nearest integer (a tie going up), and
    0 when there is no such worker. *)
Theorem averageStayDuration_mean
    (h : Host) (workers : Workers) (rooms : Rooms) (timeRange : string) :
  let stays := map (fun p => whole_days p.1 p.2) (completed_stays workers) in
  let mean := (inject_Z (JS.sum stays) / inject_Z (JS.len stays))%Q in
  let avg := Snapshot.averageStayDuration (statistics h workers rooms timeRange) in
  staysWithDuration workers = stays
  /\ (completed_stays workers = [] -> avg = 0)
  /\ (completed_stays workers <> [] ->
      avg = JS.Math_round mean
      /\ (inject_Z avg - (1 # 2) <= mean)%Q /\ (mean < inject_Z avg + (1 # 2))%Q).
Proof.
  cbn zeta. cbn [statistics Snapshot.averageStayDuration].
  unfold averageStayDuration. rewrite staysWithDuration_whole_days.
  split; [reflexivity|]. split.
  - intros ->. reflexivity.
  - intros Hne.
    destruct (Z.ltb_spec 0 (JS.len (map (fun p => whole_days p.1 p.2) (completed_stays workers))))
      as [_|Hlen].
    + split; [reflexivity|]. apply Math_round_bounds.
    + exfalso. destruct (completed_stays workers); [done|].
      cbn [map] in Hlen. rewrite len_cons in Hlen.
      pose proof (len_nonneg (map (fun p : Z * Z => whole_days p.1 p.2) l)). lia.
Qed.

Lemma averageStayDuration_mean_witness :
  Snapshot.averageStayDuration
    (statistics {| Date_now := 0; LocalTZA := 0 |} stay_example [] "month") = 7
  /\ Snapshot.averageStayDuration
       (statistics {| Date_now := 0; LocalTZA := 0 |} [worker0] [] "month") = 0.
Proof.
  split.
  - rewrite (proj1 (proj2 (proj2 (averageStayDuration_mean
                {| Date_now := 0; LocalTZA := 0 |} stay_example [] "month")) ltac:(done))).
    vm_compute. reflexivity.
  - apply (proj1 (proj2 (averageStayDuration_mean
                {| Date_now := 0; LocalTZA := 0 |} [worker0] [] "month"))).
    reflexivity.
Defined.

(** ** Turnover and retention *)







(** The same input on binary64 numbers: the quotient 1/32, its products and
    the difference are exact, the returned figures are 3.13 and 96.88, and
    their sum is above 100. *)
Example one_in_32_binary64 :
  Binary64.one_in_32 = [true; true; true; true; false; true].
Proof. vm_compute. reflexivity. Qed.



(** ** The calendar *)

Lemma DayFromYear_succ (y : Z) :
  Date.DayFromYear (y + 1) = Date.DayFromYear y + 365 + Date.leap_days y.
Proof.
  unfold Date.DayFromYear, Date.leap_days, Date.InLeapYear.
  destruct (Z.eqb_spec (y mod 4) 0), (Z.eqb_spec (y mod 100) 0), (Z.eqb_spec (y mod 400) 0);
    cbn [andb orb negb]; Z.div_mod_to_equations; lia.
Qed.

(** [YearFromDay d] is the year that contains day [d]. *)
Lemma YearFromDay_spec (d : Z) :
  Date.DayFromYear (Date.YearFromDay d) <= d < Date.DayFromYear (Date.YearFromDay d + 1).
Proof.
  unfold Date.YearFromDay.
  set (y := 1970 + d * 400 / 146097).
  assert (Date.DayFromYear (y - 1) <= d /\ d < Date.DayFromYear (y + 2)) as [Hlo Hhi].
  { subst y. unfold Date.DayFromYear. Z.div_mod_to_equations. lia. }
  destruct (Z.ltb_spec d (Date.DayFromYear y)).
  - replace (y - 1 + 1) with y by lia. lia.
  - destruct (Z.leb_spec (Date.DayFromYear (y + 1)) d).
    + replace (y + 1 + 1) with (y + 2) by lia. lia.
    + lia.
Qed.

Lemma DayWithinYear_range (t : Z) :
  0 <= Date.DayWithinYear t < 365 + Date.leap_days (Date.YearFromTime t).
Proof.
  unfold Date.DayWithinYear, Date.YearFromTime.
  pose proof (YearFromDay_spec (Date.Day t)) as H.
  rewrite DayFromYear_succ in H. lia.
Qed.

Lemma MonthFromDay_range (d l : Z) : 0 <= Date.MonthFromDay d l <= 11.
Proof. unfold Date.MonthFromDay. repeat case_match; lia. Qed.

Lemma MakeDay_in_range (y m dt : Z) :
  0 <= m <= 11 ->
  Date.MakeDay y m dt = Date.DayFromYear y + Date.DaysBeforeMonth m (Date.leap_days y) + dt - 1.
Proof.
  intros Hm. unfold Date.MakeDay.
  rewrite Z.div_small, Z.mod_small by lia. by rewrite Z.add_0_r.
Qed.

Lemma MakeDate_Day (t n : Z) :
  Date.MakeDate (Date.Day t - n) (Date.TimeWithinDay t) = t - n * Date.msPerDay.
Proof.
  unfold Date.MakeDate, Date.Day, Date.TimeWithinDay, Date.msPerDay.
  Z.div_mod_to_equations. lia.
Qed.

(** The date [t] falls on, rebuilt from its year, month and day of month. *)
Lemma MakeDay_of_fields (t : Z) :
  Date.MakeDay (Date.YearFromTime t) (Date.MonthFromTime t) (Date.DateFromTime t) = Date.Day t.
Proof.
  rewrite MakeDay_in_range by apply MonthFromDay_range.
  unfold Date.DateFromTime, Date.DayWithinYear. lia.
Qed.

(** [date.setDate(date.getDate() - n)] goes back [n] days. *)
Lemma setDate_back (tz t n : Z) :
  Date.setDate tz t (Date.getDate tz t - n) = t - n * Date.msPerDay.
Proof.
  unfold Date.setDate, Date.getDate.
  set (lt := Date.LocalTime tz t).
  rewrite MakeDay_in_range by apply MonthFromDay_range.
  replace (_ + _ + _ - 1) with (Date.Day lt - n)
    by (unfold Date.DateFromTime, Date.DayWithinYear; lia).
  rewrite MakeDate_Day. unfold Date.UTC, lt, Date.LocalTime. lia.
Qed.

Lemma days_of_year_back_cases (tz t : Z) :
  days_of_year_back tz t = 365 \/ days_of_year_back tz t = 366.
Proof.
  unfold days_of_year_back, Date.leap_days. repeat case_match; lia.
Qed.

Lemma DaysBeforeMonth_leap (m l l' : Z) :
  0 <= m <= 11 ->
  Date.DaysBeforeMonth m l = Date.DaysBeforeMonth m l' + (if m <? 2 then 0 else l - l').
Proof.
  intros Hm. unfold Date.DaysBeforeMonth.
  repeat match goal with
         | |- context [m =? ?k] => destruct (Z.eqb_spec m k)
         end;
    destruct (Z.ltb_spec m 2); lia.
Qed.

Lemma setFullYear_back (tz t : Z) :
  Date.setFullYear tz t (Date.getFullYear tz t - 1) = t - days_of_year_back tz t * Date.msPerDay.
Proof.
  unfold Date.setFullYear, Date.getFullYear, days_of_year_back.
  set (lt := Date.LocalTime tz t).
  pose proof (MonthFromDay_range (Date.DayWithinYear lt) (Date.leap_days (Date.YearFromTime lt)))
    as Hm. fold (Date.MonthFromTime lt) in Hm.
  rewrite MakeDay_in_range by exact Hm.
  set (y := Date.YearFromTime lt) in *. set (m := Date.MonthFromTime lt) in *.
  match goal with
  | |- Date.UTC tz (Date.MakeDate ?d _) = _ =>
      replace d with (Date.Day lt - (365 + (if m <? 2 then Date.leap_days (y - 1)
                                                 else Date.leap_days y)))
  end.
  - rewrite MakeDate_Day. unfold Date.UTC, lt, Date.LocalTime. lia.
  - pose proof (DayFromYear_succ (y - 1)) as Hy. replace (y - 1 + 1) with y in Hy by lia.
    pose proof (DaysBeforeMonth_leap m (Date.leap_days y) (Date.leap_days (y - 1)) Hm) as Hb.
    unfold Date.DateFromTime, Date.DayWithinYear. fold y m.
    destruct (Z.ltb_spec m 2); lia.
Qed.

(** ** Time-windowed counts *)

Lemma getTimeThreshold_days (h : Host) (timeRange : string) :
  timeRange <> "year" ->
  getTimeThreshold h timeRange = cutoff_by_days (Date_now h) timeRange.
Proof.
  intros Hy. unfold getTimeThreshold, cutoff_by_days, range_days.
  destruct (String.eqb_spec timeRange "year"); [done|].
  repeat case_match; apply setDate_back.
Qed.

Lemma getTimeThreshold_year (h : Host) :
  getTimeThreshold h "year"
  = Date_now h - days_of_year_back (LocalTZA h) (Date_now h) * Date.msPerDay.
Proof. unfold getTimeThreshold. cbn [String.eqb Ascii.eqb Bool.eqb]. apply setFullYear_back. Qed.

Lemma recentExits_filter (h : Host) (workers : Workers) (timeRange : string) :
  recentExits h workers timeRange
  = List.filter (fun w => is_exited w && date_ge (Worker.dateSortie w) (getTimeThreshold h timeRange))
      workers.
Proof.
  unfold recentExits, exitedWorkers. rewrite filter_filter.
  apply List.filter_ext. intros w. unfold is_exited, date_ge.
  destruct (Worker.dateSortie w); by rewrite ?andb_false_r.
Qed.

Lemma recentArrivals_filter (h : Host) (workers : Workers) (timeRange : string) :
  recentArrivals h workers timeRange
  = List.filter (fun w => is_actif w && date_ge (Worker.dateEntree w) (getTimeThreshold h timeRange))
      workers.
Proof. unfold recentArrivals. apply List.filter_ext. intros w. apply andb_comm. Qed.




(** ** Counter objects *)





(** ** The exit-reason histogram *)











(** ** The first entry of greatest count *)







Lemma sort_insert_stable (c : Z) (x : string * Z) (l : list (string * Z)) :
  List.filter (fun y => y.2 =? c) (sort_insert by_count_desc x l)
  = List.filter (fun y => y.2 =? c) (x :: l).
Proof.
  induction l as [|y l IH]; cbn [sort_insert]; [reflexivity|].
  destruct (Z.ltb_spec 0 (by_count_desc x y)) as [Hxy|_]; [|reflexivity].
  cbn [List.filter] in *. rewrite IH. unfold by_count_desc in Hxy.
  destruct (Z.eqb_spec x.2 c), (Z.eqb_spec y.2 c); (reflexivity || lia).
Qed.

Lemma sort_by_stable (c : Z) (l : list (string * Z)) :
  List.filter (fun y => y.2 =? c) (sort_by by_count_desc l)
  = List.filter (fun y => y.2 =? c) l.
Proof.
  induction l as [|x l IH]; [reflexivity|].
  cbn [sort_by fold_right]. fold (sort_by by_count_desc l).
  rewrite sort_insert_stable. cbn [List.filter]. by rewrite IH.
Qed.



(** ** The order of [Object.entries] *)



Lemma filter_elem_of {A} (f : A -> bool) (l : list A) (x : A) :
  x ∈ List.filter f l <-> x ∈ l /\ f x = true.
Proof. rewrite !list_elem_of_In. apply List.filter_In. Qed.



(** ** Top exit reason *)









(** ** Dependence on the clock *)





(** ** Occupancy reconciliation *)

Lemma repair_key (workers : Workers) (r : Room.t) :
  Sync.room_key (Sync.repair workers r) = Sync.room_key r.
Proof. unfold Sync.repair. by destruct (Sync.inconsistent workers r). Qed.

Lemma repair_consistent (workers : Workers) (r : Room.t) :
  Sync.inconsistent workers (Sync.repair workers r) = false.
Proof.
  unfold Sync.inconsistent at 1, Sync.derivedCount. rewrite repair_key.
  fold (Sync.derivedCount workers r).
  unfold Sync.repair. destruct (Sync.inconsistent workers r) eqn:Hr.
  - cbn [Sync.UpdateRoomOccupancy Room.occupantsActuels]. by rewrite Z.eqb_refl.
  - unfold Sync.inconsistent in Hr. by rewrite Hr.
Qed.

Lemma repair_untouched (workers : Workers) (r : Room.t) :
  Sync.inconsistent workers r = false -> Sync.repair workers r = r.
Proof. intros Hr. unfold Sync.repair. by rewrite Hr. Qed.

Lemma filter_none {A} (f : A -> bool) (l : list A) :
  (forall x, x ∈ l -> f x = false) -> List.filter f l = [].
Proof.
  induction l as [|x l IH]; intros Hf; [reflexivity|].
  cbn [List.filter]. rewrite (Hf x) by (by left). apply IH. intros y Hy. apply Hf. by right.
Qed.

Lemma map_id_on {A} (f : A -> A) (l : list A) :
  (forall x, x ∈ l -> f x = x) -> map f l = l.
Proof.
  induction l as [|x l IH]; intros Hf; [reflexivity|].
  cbn [map]. rewrite (Hf x) by (by left). f_equal. apply IH. intros y Hy. apply Hf. by right.
Qed.

Lemma repaired_rooms_consistent (workers : Workers) (rooms : Rooms) (r : Room.t) :
  r ∈ map (Sync.repair workers) rooms -> Sync.inconsistent workers r = false.
Proof. intros (r0 & -> & _)%list_elem_of_fmap. apply repair_consistent. Qed.

(** C3. Reconcile is idempotent: run on the rooms a first run has left, with
    the same workers, it checks as many rooms, updates none, reports no
    inconsistency and leaves every room as it is.  A room that was consistent
    before the first run is left untouched by it, the first run counts
    exactly the inconsistent rooms as updated, and after it every room stores
    the number of active workers assigned to its number, in its farm, whose
    sex goes with its restriction. *)
Theorem Reconcile_idempotent (workers : Workers) (rooms : Rooms) :
  let first := Sync.Reconcile workers rooms in
  let second := Sync.Reconcile workers first.2 in
  Sync.roomsUpdated second.1 = 0
  /\ Sync.inconsistenciesFound second.1 = []
  /\ second.2 = first.2
  /\ Sync.totalRoomsChecked second.1 = Sync.totalRoomsChecked first.1
  /\ Sync.hasDiscrepancy workers first.2 = false
  /\ Sync.roomsUpdated first.1 = JS.len (List.filter (Sync.inconsistent workers) rooms)
  /\ Sync.roomsUpdated first.1 = JS.len (Sync.inconsistenciesFound first.1)
  /\ Forall2 (fun r r' => if Sync.inconsistent workers r
                         then Room.occupantsActuels r' = Sync.derivedCount workers r
                         else r' = r)
       rooms first.2
  /\ Forall (fun r' => Room.occupantsActuels r'
                      = JS.len (List.filter (holds_key (Sync.room_key r')) workers))
       first.2.
Proof.
  cbn zeta. unfold Sync.Reconcile. cbn [fst snd Sync.roomsUpdated Sync.inconsistenciesFound
                                        Sync.totalRoomsChecked].
  rewrite (filter_none (Sync.inconsistent workers) (map (Sync.repair workers) rooms))
    by apply repaired_rooms_consistent.
  repeat apply conj; try reflexivity.
  - apply map_id_on. intros r Hr. apply repair_untouched.
    by apply (repaired_rooms_consistent workers rooms).
  - unfold JS.len. by rewrite length_map.
  - unfold Sync.hasDiscrepancy. induction rooms as [|r rooms IH]; [reflexivity|].
    cbn [map existsb]. by rewrite repair_consistent, IH.
  - unfold JS.len. by rewrite length_map.
  - induction rooms as [|r rooms IH]; [constructor|].
    cbn [map]. constructor; [|exact IH].
    unfold Sync.repair. destruct (Sync.inconsistent workers r); reflexivity.
  - apply Forall_forall. intros r' Hr'%repaired_rooms_consistent.
    rewrite <- derivedCount_count. unfold Sync.inconsistent in Hr'.
    apply negb_false_iff in Hr'. by apply Z.eqb_eq.
Qed.

(** Scenario B: a room of four places that stores one occupant while two
    active men are assigned to it. *)
Example Reconcile_scenario_B :
  let man n := Worker.mk n "f1" "actif" "homme" 30 None None None (Some "12") in
  let room := Room.mk "r1" "f1" "12" "hommes" 4 1 in
  let first := Sync.Reconcile [man "Ali"; man "Omar"] [room] in
  first.1 = {| Sync.totalRoomsChecked := 1; Sync.roomsUpdated := 1;
               Sync.inconsistenciesFound :=
                 [{| Sync.roomNumber := "12"; Sync.oldOccupants := 1;
                     Sync.newOccupants := 2; Sync.workerNames := ["Ali"; "Omar"] |}] |}
  /\ first.2 = [Room.mk "r1" "f1" "12" "hommes" 4 2]
  /\ (Sync.Reconcile [man "Ali"; man "Omar"] first.2).1
     = {| Sync.totalRoomsChecked := 1; Sync.roomsUpdated := 0;
          Sync.inconsistenciesFound := [] |}.
Proof. vm_compute. repeat split. Qed.

(** * Further properties of the page *)

(** ** Counting with filters *)

Lemma len_filter_le {A} (f : A -> bool) (l : list A) : JS.len (List.filter f l) <= JS.len l.
Proof.
  induction l as [|x l IH]; [reflexivity|].
  rewrite len_filter_cons, len_cons. destruct (f x); lia.
Qed.

Lemma len_filter_mono {A} (f g : A -> bool) (l : list A) :
  (forall x, f x = true -> g x = true) ->
  JS.len (List.filter f l) <= JS.len (List.filter g l).
Proof.
  intros Hfg. induction l as [|x l IH]; [reflexivity|].
  rewrite !len_filter_cons. specialize (Hfg x).
  destruct (f x), (g x); lia.
Qed.


Lemma len_filter_split {A} (f g : A -> bool) (l : list A) :
  JS.len (List.filter f l)
  = JS.len (List.filter (fun x => f x && g x) l)
    + JS.len (List.filter (fun x => f x && negb (g x)) l).
Proof.
  induction l as [|x l IH]; [reflexivity|].
  rewrite !len_filter_cons, IH. destruct (f x), (g x); simpl; lia.
Qed.

Lemma filter_sublist {A} (f : A -> bool) (l : list A) : List.filter f l `sublist_of` l.
Proof.
  induction l as [|x l IH]; [constructor|].
  cbn [List.filter]. destruct (f x); by constructor.
Qed.

(** ** Visibility scope *)

Lemma reachable_selection_restricted (auth : Auth) (fermes : list string) (sel : string) :
  isSuperAdmin auth = false -> reachable_selection auth fermes sel -> sel = "all".
Proof. intros Hrole. induction 1; congruence. Qed.

Lemma same_ferme_Some (f : string) (u : option string) : same_ferme f u = true <-> u = Some f.
Proof.
  destruct u as [g|]; simpl; [|split; discriminate].
  rewrite String.eqb_eq. split; congruence.
Qed.

(** Under 'all', a user who is not super admin gets the records of the
    user's own farm. *)
Lemma scoped_all_own (auth : Auth) (allWorkers : Workers) (allRooms : Rooms) :
  isSuperAdmin auth = false ->
  (forall w, w ∈ scoped_workers auth "all" allWorkers
             <-> w ∈ allWorkers /\ user_fermeId auth = Some (Worker.fermeId w))
  /\ (forall r, r ∈ scoped_rooms auth "all" allRooms
                <-> r ∈ allRooms /\ user_fermeId auth = Some (Room.fermeId r)).
Proof.
  unfold scoped_workers, scoped_rooms. cbn [String.eqb Ascii.eqb Bool.eqb].
  intros ->. split; intros x; by rewrite filter_elem_of, same_ferme_Some.
Qed.

(** X1. The scope keeps the order of the fetched collections and adds
    nothing.  Once a farm other than 'all' is selected, the scope is exactly
    the workers and rooms of that farm, whatever the role and the farm of the
    user; under 'all' a super admin sees everything and any other user
    the records of the user's own farm, nothing when the user has no farm. *)
Theorem scope_of_selection
    (auth : Auth) (selectedFerme : string) (allWorkers : Workers) (allRooms : Rooms) :
  scoped_workers auth selectedFerme allWorkers `sublist_of` allWorkers
  /\ scoped_rooms auth selectedFerme allRooms `sublist_of` allRooms
  /\ (selectedFerme <> "all" ->
      forall w, w ∈ scoped_workers auth selectedFerme allWorkers
                <-> w ∈ allWorkers /\ Worker.fermeId w = selectedFerme)
  /\ (selectedFerme <> "all" ->
      forall r, r ∈ scoped_rooms auth selectedFerme allRooms
                <-> r ∈ allRooms /\ Room.fermeId r = selectedFerme)
  /\ (isSuperAdmin auth = true ->
      scoped_workers auth "all" allWorkers = allWorkers
      /\ scoped_rooms auth "all" allRooms = allRooms)
  /\ (isSuperAdmin auth = false ->
      (forall w, w ∈ scoped_workers auth "all" allWorkers
                 <-> w ∈ allWorkers /\ user_fermeId auth = Some (Worker.fermeId w))
      /\ (forall r, r ∈ scoped_rooms auth "all" allRooms
                    <-> r ∈ allRooms /\ user_fermeId auth = Some (Room.fermeId r)))
  /\ (isSuperAdmin auth = false -> user_fermeId auth = None ->
      scoped_workers auth "all" allWorkers = [] /\ scoped_rooms auth "all" allRooms = []).
Proof.
  repeat apply conj.
  - unfold scoped_workers. repeat case_match; (reflexivity || apply filter_sublist).
  - unfold scoped_rooms. repeat case_match; (reflexivity || apply filter_sublist).
  - intros Hsel w. unfold scoped_workers.
    rewrite (proj2 (String.eqb_neq _ _) Hsel), filter_elem_of, String.eqb_eq. reflexivity.
  - intros Hsel r. unfold scoped_rooms.
    rewrite (proj2 (String.eqb_neq _ _) Hsel), filter_elem_of, String.eqb_eq. reflexivity.
  - unfold scoped_workers, scoped_rooms. cbn [String.eqb Ascii.eqb Bool.eqb].
    by intros ->.
  - apply scoped_all_own.
  - unfold scoped_workers, scoped_rooms. cbn [String.eqb Ascii.eqb Bool.eqb].
    intros -> ->. split; by apply filter_none.
Qed.

Lemma scope_of_selection_witness :
  let auth := {| user_fermeId := Some "f2"; isSuperAdmin := false |} in
  let other := Worker.mk "b" "f2" "actif" "femme" 22 None None None None in
  (worker0 ∈ scoped_workers auth "f1" [worker0; other]
   <-> worker0 ∈ [worker0; other] /\ Worker.fermeId worker0 = "f1")
  /\ (other ∈ scoped_workers auth "all" [worker0; other]
      <-> other ∈ [worker0; other] /\ user_fermeId auth = Some (Worker.fermeId other))
  /\ scoped_workers {| user_fermeId := None; isSuperAdmin := false |} "all" [worker0; other] = []
  /\ scoped_workers {| user_fermeId := None; isSuperAdmin := true |} "all" [worker0; other]
     = [worker0; other].
Proof.
  cbn zeta. split; [|split; [|split]].
  - destruct (scope_of_selection {| user_fermeId := Some "f2"; isSuperAdmin := false |}
                "f1" [worker0; Worker.mk "b" "f2" "actif" "femme" 22 None None None None]
                [room0]) as (_ & _ & Hsel & _).
    assert ("f1" <> "all") as Hne by discriminate. exact (Hsel Hne _).
  - destruct (scope_of_selection {| user_fermeId := Some "f2"; isSuperAdmin := false |}
                "all" [worker0; Worker.mk "b" "f2" "actif" "femme" 22 None None None None]
                [room0]) as (_ & _ & _ & _ & _ & Hown & _).
    destruct (Hown eq_refl) as [Hw _]. exact (Hw _).
  - destruct (scope_of_selection {| user_fermeId := None; isSuperAdmin := false |}
                "all" [worker0; Worker.mk "b" "f2" "actif" "femme" 22 None None None None]
                [room0]) as (_ & _ & _ & _ & _ & _ & Hnone).
    apply Hnone; reflexivity.
  - destruct (scope_of_selection {| user_fermeId := None; isSuperAdmin := true |}
                "all" [worker0; Worker.mk "b" "f2" "actif" "femme" 22 None None None None]
                [room0]) as (_ & _ & _ & _ & Hadmin & _).
    apply Hadmin; reflexivity.
Defined.

(** X2. A user who is not super admin cannot leave the selection 'all', and
    so never gets a worker or a room of a farm other than the user's own in
    scope. *)
Theorem scope_isolation
    (auth : Auth) (fermes : list string) (selectedFerme : string)
    (allWorkers : Workers) (allRooms : Rooms) :
  isSuperAdmin auth = false ->
  reachable_selection auth fermes selectedFerme ->
  selectedFerme = "all"
  /\ Forall (fun w => user_fermeId auth = Some (Worker.fermeId w))
       (scoped_workers auth selectedFerme allWorkers)
  /\ Forall (fun r => user_fermeId auth = Some (Room.fermeId r))
       (scoped_rooms auth selectedFerme allRooms).
Proof.
  intros Hrole Hsel.
  pose proof (reachable_selection_restricted _ _ _ Hrole Hsel) as ->.
  destruct (scoped_all_own auth allWorkers allRooms Hrole) as [Hw Hr].
  split; [reflexivity|]. split; apply Forall_forall.
  - intros w Hin. by apply Hw.
  - intros r Hin. by apply Hr.
Qed.

Lemma scope_isolation_witness :
  let auth := {| user_fermeId := Some "f1"; isSuperAdmin := false |} in
  let other := Worker.mk "b" "f2" "actif" "femme" 22 None None None None in
  Forall (fun w => user_fermeId auth = Some (Worker.fermeId w))
    (scoped_workers auth "all" [worker0; other]).
Proof.
  cbn zeta.
  apply (scope_isolation {| user_fermeId := Some "f1"; isSuperAdmin := false |}
           ["f1"; "f2"] "all" _ [room0]); [reflexivity | constructor].
Defined.

(** ** Partitions of the workers and of the rooms *)

Lemma len_filter_three {A} (f g : A -> bool) (l : list A) :
  (forall x, f x && g x = false) ->
  JS.len (List.filter f l) + JS.len (List.filter g l)
  + JS.len (List.filter (fun x => negb (f x) && negb (g x)) l)
  = JS.len l.
Proof.
  intros Hfg. induction l as [|x l IH]; [reflexivity|].
  rewrite !len_filter_cons, len_cons. specialize (Hfg x).
  destruct (f x), (g x); simpl in *; (discriminate || lia).
Qed.

Lemma string_eqb_two (s a b : string) : a <> b -> String.eqb s a && String.eqb s b = false.
Proof.
  intros Hab. destruct (String.eqb_spec s a) as [->|]; [|reflexivity].
  by apply String.eqb_neq.
Qed.

Lemma sex_partition (workers : Workers) :
  JS.len (maleWorkers workers) + JS.len (femaleWorkers workers)
  + JS.len (List.filter
              (fun w => negb (String.eqb (Worker.sexe w) "homme")
                        && negb (String.eqb (Worker.sexe w) "femme"))
              (activeWorkers workers))
  = JS.len (activeWorkers workers).
Proof.
  unfold maleWorkers, femaleWorkers. apply len_filter_three.
  intros w. by apply string_eqb_two.
Qed.

(** X3. The active workers, the inactive workers and the workers of any
    other status make up the scope; the exited workers are among the inactive
    ones; the men, the women and the active workers of any other [sexe] make
    up the active workers. *)
Theorem workers_partition
    (h : Host) (workers : Workers) (rooms : Rooms) (timeRange : string) :
  let s := statistics h workers rooms timeRange in
  Snapshot.totalWorkers s + Snapshot.totalInactiveWorkers s
  + JS.len (List.filter (fun w => negb (is_actif w) && negb (is_inactif w)) workers)
  = JS.len workers
  /\ Snapshot.totalExitedWorkers s
     + JS.len (List.filter
                 (fun w => is_inactif w && negb (bool_decide (is_Some (Worker.dateSortie w))))
                 workers)
     = Snapshot.totalInactiveWorkers s
  /\ Snapshot.maleWorkers s + Snapshot.femaleWorkers s
     + JS.len (List.filter
                 (fun w => negb (String.eqb (Worker.sexe w) "homme")
                           && negb (String.eqb (Worker.sexe w) "femme"))
                 (activeWorkers workers))
     = Snapshot.totalWorkers s
  /\ 0 <= Snapshot.totalExitedWorkers s <= Snapshot.totalInactiveWorkers s
  /\ Snapshot.totalWorkers s + Snapshot.totalInactiveWorkers s <= JS.len workers.
Proof.
  cbn zeta. cbn [statistics Snapshot.totalWorkers Snapshot.totalInactiveWorkers
                  Snapshot.totalExitedWorkers Snapshot.maleWorkers Snapshot.femaleWorkers].
  assert (JS.len (activeWorkers workers) + JS.len (inactiveWorkers workers)
          + JS.len (List.filter (fun w => negb (is_actif w) && negb (is_inactif w)) workers)
          = JS.len workers) as Hstatus.
  { apply len_filter_three. intros w. by apply string_eqb_two. }
  assert (JS.len (exitedWorkers workers)
          + JS.len (List.filter
                      (fun w => is_inactif w
                                && negb (bool_decide (is_Some (Worker.dateSortie w))))
                      workers)
          = JS.len (inactiveWorkers workers)) as Hexit.
  { unfold inactiveWorkers, exitedWorkers, is_exited.
    rewrite (len_filter_split is_inactif
               (fun w => bool_decide (is_Some (Worker.dateSortie w)))). reflexivity. }
  repeat apply conj; try assumption.
  - apply sex_partition.
  - apply len_nonneg.
  - pose proof (len_nonneg (List.filter
                  (fun w => is_inactif w
                            && negb (bool_decide (is_Some (Worker.dateSortie w))))
                  workers)). lia.
  - pose proof (len_nonneg (List.filter
                  (fun w => negb (is_actif w) && negb (is_inactif w)) workers)). lia.
Qed.



(** ** Means and extremes *)

Lemma sum_bounds (l : list Z) (lo hi : Z) :
  Forall (fun a => lo <= a <= hi) l ->
  lo * JS.len l <= JS.sum l <= hi * JS.len l.
Proof.
  induction 1 as [|a l Ha _ IH]; [unfold JS.sum, JS.len; simpl; lia|].
  rewrite sum_cons, len_cons. lia.
Qed.

(** The rounded mean of integers lies between any two integers that bound
    them. *)
Lemma mean_round_bounds (l : list Z) (lo hi : Z) :
  l <> [] -> Forall (fun a => lo <= a <= hi) l ->
  lo <= JS.Math_round (inject_Z (JS.sum l) / inject_Z (JS.len l)) <= hi.
Proof.
  intros Hne Hl. pose proof (sum_bounds l lo hi Hl) as [Hlo Hhi].
  assert (0 < JS.len l) as Hn.
  { destruct l; [done|]. rewrite len_cons. pose proof (len_nonneg l). lia. }
  set (n := JS.len l) in *. set (t := JS.sum l) in *.
  assert (0 < inject_Z n)%Q as HnQ by (change 0%Q with (inject_Z 0); by rewrite <- Zlt_Qlt).
  assert (inject_Z lo <= inject_Z t / inject_Z n)%Q as HloQ.
  { apply Qle_shift_div_l; [exact HnQ|]. rewrite <- inject_Z_mult, <- Zle_Qle. lia. }
  assert (inject_Z t / inject_Z n <= inject_Z hi)%Q as HhiQ.
  { apply Qle_shift_div_r; [exact HnQ|]. rewrite <- inject_Z_mult, <- Zle_Qle. lia. }
  destruct (Math_round_bounds (inject_Z t / inject_Z n)) as [Hr1 Hr2].
  set (r := JS.Math_round (inject_Z t / inject_Z n)) in *.
  assert (inject_Z lo < inject_Z (r + 1))%Q as H1
    by (rewrite inject_Z_plus; change (inject_Z 1) with 1%Q; lra).
  assert (inject_Z r < inject_Z (hi + 1))%Q as H2
    by (rewrite inject_Z_plus; change (inject_Z 1) with 1%Q; lra).
  rewrite <- Zlt_Qlt in H1, H2. lia.
Qed.

Lemma fold_min_spec (l : list Z) (a : Z) :
  let m := fold_left Z.min l a in
  m ∈ a :: l /\ Forall (fun x => m <= x) (a :: l).
Proof.
  revert a. induction l as [|x l IH]; intros a; cbn [fold_left].
  - split; [by left | repeat constructor; lia].
  - destruct (IH (Z.min a x)) as [Hin Hall]. cbn zeta in *.
    set (m := fold_left Z.min l (Z.min a x)) in *.
    apply Forall_cons in Hall as [Hm Hall]. split.
    + apply elem_of_cons in Hin as [Hin|Hin]; [|by do 2 right].
      destruct (Z.min_spec a x) as [[_ Heq]|[_ Heq]]; rewrite Heq in Hin;
        rewrite Hin; [by left | right; by left].
    + repeat (apply Forall_cons; split); [lia | lia | exact Hall].
Qed.

Lemma fold_max_spec (l : list Z) (a : Z) :
  let m := fold_left Z.max l a in
  m ∈ a :: l /\ Forall (fun x => x <= m) (a :: l).
Proof.
  revert a. induction l as [|x l IH]; intros a; cbn [fold_left].
  - split; [by left | repeat constructor; lia].
  - destruct (IH (Z.max a x)) as [Hin Hall]. cbn zeta in *.
    set (m := fold_left Z.max l (Z.max a x)) in *.
    apply Forall_cons in Hall as [Hm Hall]. split.
    + apply elem_of_cons in Hin as [Hin|Hin]; [|by do 2 right].
      destruct (Z.max_spec a x) as [[_ Heq]|[_ Heq]]; rewrite Heq in Hin;
        rewrite Hin; [right; by left | by left].
    + repeat (apply Forall_cons; split); [lia | lia | exact Hall].
Qed.

(** X5. With at least one active worker, [minAge] and [maxAge] are ages of
    active workers that bound every age of an active worker, and [averageAge]
    lies between them; with none, the three are 0. *)
Theorem age_statistics
    (h : Host) (workers : Workers) (rooms : Rooms) (timeRange : string) :
  let s := statistics h workers rooms timeRange in
  let ages := map Worker.age (List.filter is_actif workers) in
  (ages = [] ->
   Snapshot.minAge s = 0 /\ Snapshot.maxAge s = 0 /\ Snapshot.averageAge s = 0)
  /\ (ages <> [] ->
      Snapshot.minAge s ∈ ages /\ Snapshot.maxAge s ∈ ages
      /\ Forall (fun a => Snapshot.minAge s <= a <= Snapshot.maxAge s) ages
      /\ Snapshot.minAge s <= Snapshot.averageAge s <= Snapshot.maxAge s).
Proof.
  cbn zeta. cbn [statistics Snapshot.minAge Snapshot.maxAge Snapshot.averageAge].
  unfold minAge, maxAge, averageAge, ages, activeWorkers.
  destruct (map Worker.age (List.filter is_actif workers)) as [|a l] eqn:Hages.
  - split; [intros _; repeat split | done].
  - split; [done | intros _].
    destruct (fold_min_spec l a) as [Hmin_in Hmin]. destruct (fold_max_spec l a) as [Hmax_in Hmax].
    cbn zeta in *.
    assert (Forall (fun x => fold_left Z.min l a <= x <= fold_left Z.max l a) (a :: l)) as Hall.
    { rewrite Forall_forall in *. intros x Hx. split; [by apply Hmin | by apply Hmax]. }
    pose proof (len_cons a l) as Hlen. pose proof (len_nonneg l).
    destruct (Z.ltb_spec 0 (JS.len (a :: l))); [|lia].
    pose proof (mean_round_bounds (a :: l) _ _ ltac:(done) Hall).
    repeat apply conj; (assumption || lia).
Qed.

Lemma age_statistics_witness :
  let s := statistics {| Date_now := 0; LocalTZA := 0 |} stay_example [] "month" in
  Snapshot.minAge s <= Snapshot.averageAge s <= Snapshot.maxAge s
  /\ Snapshot.minAge (statistics {| Date_now := 0; LocalTZA := 0 |} [] [] "month") = 0.
Proof.
  cbn zeta. split.
  - apply (age_statistics {| Date_now := 0; LocalTZA := 0 |} stay_example [] "month").
    discriminate.
  - apply (age_statistics {| Date_now := 0; LocalTZA := 0 |} [] [] "month"). reflexivity.
Defined.

(** X6. The average stay lies between any two bounds of the stays it is
    taken over; in particular it is not negative when no exited worker left
    before entering. *)
Theorem averageStayDuration_bounds
    (h : Host) (workers : Workers) (rooms : Rooms) (timeRange : string) (lo hi : Z) :
  let s := statistics h workers rooms timeRange in
  (completed_stays workers <> [] ->
   Forall (fun p => lo <= whole_days p.1 p.2 <= hi) (completed_stays workers) ->
   lo <= Snapshot.averageStayDuration s <= hi)
  /\ (Forall (fun p => p.1 <= p.2) (completed_stays workers) ->
      0 <= Snapshot.averageStayDuration s).
Proof.
  cbn zeta. cbn [statistics Snapshot.averageStayDuration].
  assert (forall lo hi,
             completed_stays workers <> [] ->
             Forall (fun p => lo <= whole_days p.1 p.2 <= hi) (completed_stays workers) ->
             lo <= averageStayDuration workers <= hi) as Hbounds.
  { clear lo hi. intros lo hi Hne Hall. unfold averageStayDuration.
    rewrite staysWithDuration_whole_days.
    set (stays := map (fun p : Z * Z => whole_days p.1 p.2) (completed_stays workers)).
    assert (stays <> []) as Hstays.
    { subst stays. destruct (completed_stays workers); [done | discriminate]. }
    assert (0 < JS.len stays) as Hn.
    { destruct stays; [done|]. rewrite len_cons. pose proof (len_nonneg stays). lia. }
    destruct (Z.ltb_spec 0 (JS.len stays)); [|lia].
    apply mean_round_bounds; [exact Hstays|].
    subst stays. by apply Forall_fmap. }
  split; [apply Hbounds|].
  intros Hpos. destruct (completed_stays workers) as [|p l] eqn:Hst.
  - unfold averageStayDuration. rewrite staysWithDuration_whole_days, Hst. reflexivity.
  - rewrite <- Hst in Hpos.
    assert (exists hi', Forall (fun p => 0 <= whole_days p.1 p.2 <= hi') (completed_stays workers))
      as [hi' Hall].
    { clear Hst. induction Hpos as [|q l' Hq _ [hi' IH]]; [by exists 0|].
      assert (0 <= whole_days q.1 q.2) as Hq0.
      { unfold whole_days, Date.msPerDay. apply Z.div_pos; lia. }
      exists (Z.max hi' (whole_days q.1 q.2)). constructor; [lia|].
      apply (Forall_impl _ _ _ IH). intros x Hx. lia. }
    apply (Hbounds 0 hi'); [done | by rewrite <- Hst].
Qed.

Lemma averageStayDuration_bounds_witness :
  3 <= Snapshot.averageStayDuration
         (statistics {| Date_now := 0; LocalTZA := 0 |} stay_example [] "month") <= 10
  /\ 0 <= Snapshot.averageStayDuration
            (statistics {| Date_now := 0; LocalTZA := 0 |} stay_example [] "month").
Proof.
  destruct (averageStayDuration_bounds {| Date_now := 0; LocalTZA := 0 |} stay_example []
              "month" 3 10) as [Hb Hpos].
  assert (completed_stays stay_example = [(0, 864000005); (86400000, 345600000)]) as Hst
      by (vm_compute; reflexivity).
  split.
  - apply Hb; [by rewrite Hst|]. rewrite Hst.
    repeat constructor; vm_compute; discriminate.
  - apply Hpos. rewrite Hst. repeat constructor; vm_compute; discriminate.
Defined.

(** ** Occupancy status *)

Lemma rate_as_fraction (o c : Z) :
  0 < c -> (inject_Z o / inject_Z c * 100 == (100 * o) # Z.to_pos c)%Q.
Proof.
  intros Hc. destruct c as [|p|p]; try lia.
  rewrite Qmake_Qdiv. unfold Qeq, Qmult. simpl Qnum. simpl Qden. simpl Z.to_pos. lia.
Qed.

Lemma Qltb_lt (x y : Q) : Qltb x y = true <-> (x < y)%Q.
Proof.
  unfold Qltb. rewrite negb_true_iff. split.
  - intros Hle. apply Qnot_le_lt. intros H. apply Qle_bool_iff in H. congruence.
  - intros Hlt. destruct (Qle_bool y x) eqn:H; [|reflexivity].
    apply Qle_bool_iff in H. lra.
Qed.

Lemma Qltb_spec (x y : Q) (b : bool) : ((x < y)%Q <-> b = true) -> Qltb x y = b.
Proof.
  intros Hb. destruct b.
  - apply Qltb_lt. by apply Hb.
  - destruct (Qltb x y) eqn:H; [|reflexivity].
    apply Qltb_lt, Hb in H. discriminate.
Qed.

Lemma rate_above (k o c : Z) :
  0 < c -> Qltb (inject_Z k) (inject_Z o / inject_Z c * 100) = (k * c <? 100 * o).
Proof.
  intros Hc. apply Qltb_spec. rewrite rate_as_fraction by exact Hc.
  rewrite Z.ltb_lt. destruct c as [|p|p]; try lia.
  unfold Qlt. simpl. lia.
Qed.

Lemma rate_below (k o c : Z) :
  0 < c -> Qltb (inject_Z o / inject_Z c * 100) (inject_Z k) = (100 * o <? k * c).
Proof.
  intros Hc. apply Qltb_spec. rewrite rate_as_fraction by exact Hc.
  rewrite Z.ltb_lt. destruct c as [|p|p]; try lia.
  unfold Qlt. simpl. lia.
Qed.

(** X7. In whole numbers: the occupancy is high when there is capacity and
    [20 * occupiedPlaces > 17 * totalCapacity], low when there is no capacity
    or [2 * occupiedPlaces < totalCapacity]; it is never both, and the card
    reads 'Optimal' exactly when [totalCapacity] is positive and
    [totalCapacity <= 2 * occupiedPlaces] and
    [20 * occupiedPlaces <= 17 * totalCapacity]. *)
Theorem occupancy_status
    (h : Host) (workers : Workers) (rooms : Rooms) (timeRange : string) :
  let s := statistics h workers rooms timeRange in
  let occupied := Snapshot.occupiedPlaces s in
  let capacity := Snapshot.totalCapacity s in
  Snapshot.isHighOccupancy s = (0 <? capacity) && (17 * capacity <? 20 * occupied)
  /\ Snapshot.isLowOccupancy s = negb (0 <? capacity) || (2 * occupied <? capacity)
  /\ Snapshot.isHighOccupancy s && Snapshot.isLowOccupancy s = false
  /\ occupancyStatus s
     = (if (0 <? capacity) && (17 * capacity <? 20 * occupied) then "Saturation"
        else if (0 <? capacity) && (capacity <=? 2 * occupied) then "Optimal"
        else "Sous-utilisé")
  /\ occupancyGradient s
     = (if (0 <? capacity) && (17 * capacity <? 20 * occupied)
        then "bg-gradient-to-br from-red-500 to-rose-600"
        else if (0 <? capacity) && (capacity <=? 2 * occupied)
             then "bg-gradient-to-br from-blue-500 to-indigo-600"
             else "bg-gradient-to-br from-orange-500 to-amber-600").
Proof.
  cbn zeta. unfold occupancyStatus, occupancyGradient.
  cbn [statistics Snapshot.isHighOccupancy Snapshot.isLowOccupancy Snapshot.occupiedPlaces
         Snapshot.totalCapacity].
  assert (isHighOccupancy workers rooms
          = (0 <? totalCapacity rooms) && (17 * totalCapacity rooms <? 20 * occupiedPlaces workers))
    as Hhigh.
  { unfold isHighOccupancy, occupancyRate.
    destruct (Z.ltb_spec 0 (totalCapacity rooms)) as [Hc|Hc]; [|reflexivity].
    change 85%Q with (inject_Z 85). rewrite rate_above by exact Hc.
    destruct (Z.ltb_spec (85 * totalCapacity rooms) (100 * occupiedPlaces workers)),
      (Z.ltb_spec (17 * totalCapacity rooms) (20 * occupiedPlaces workers));
      (reflexivity || lia). }
  assert (isLowOccupancy workers rooms
          = negb (0 <? totalCapacity rooms) || (2 * occupiedPlaces workers <? totalCapacity rooms))
    as Hlow.
  { unfold isLowOccupancy, occupancyRate.
    destruct (Z.ltb_spec 0 (totalCapacity rooms)) as [Hc|Hc]; [|reflexivity].
    change 50%Q with (inject_Z 50). rewrite rate_below by exact Hc.
    destruct (Z.ltb_spec (100 * occupiedPlaces workers) (50 * totalCapacity rooms)),
      (Z.ltb_spec (2 * occupiedPlaces workers) (totalCapacity rooms));
      (reflexivity || lia). }
  rewrite Hhigh, Hlow.
  destruct (Z.ltb_spec 0 (totalCapacity rooms)),
    (Z.ltb_spec (17 * totalCapacity rooms) (20 * occupiedPlaces workers)),
    (Z.ltb_spec (2 * occupiedPlaces workers) (totalCapacity rooms)),
    (Z.leb_spec (totalCapacity rooms) (2 * occupiedPlaces workers));
    cbn [andb orb negb]; repeat split; try reflexivity; lia.
Qed.

(** ** Gender balance *)

Lemma ceil_fifth (a : Z) : JS.Math_ceil (inject_Z a * (2 # 10)) = (a + 4) / 5.
Proof.
  unfold JS.Math_ceil, Qceiling, Qfloor, Qopp, Qmult, inject_Z.
  simpl Qnum. simpl Qden. Z.div_mod_to_equations. lia.
Qed.

(** X8. In whole numbers: the crew counts as balanced when five times the
    difference between the men and the women is at most the number of active
    workers plus four; a crew of one, or none, is always balanced. *)
Theorem balancedGender_integers
    (h : Host) (workers : Workers) (rooms : Rooms) (timeRange : string) :
  let s := statistics h workers rooms timeRange in
  Snapshot.balancedGender s
  = (5 * Z.abs (Snapshot.maleWorkers s - Snapshot.femaleWorkers s)
     <=? Snapshot.totalWorkers s + 4)
  /\ (Snapshot.totalWorkers s <= 1 -> Snapshot.balancedGender s = true).
Proof.
  cbn zeta. cbn [statistics Snapshot.balancedGender Snapshot.maleWorkers
                   Snapshot.femaleWorkers Snapshot.totalWorkers].
  unfold balancedGender. rewrite ceil_fifth.
  pose proof (sex_partition workers) as Hsex.
  pose proof (len_nonneg (maleWorkers workers)) as Hm.
  pose proof (len_nonneg (femaleWorkers workers)) as Hf.
  pose proof (len_nonneg (List.filter
                (fun w => negb (String.eqb (Worker.sexe w) "homme")
                          && negb (String.eqb (Worker.sexe w) "femme"))
                (activeWorkers workers))) as Ho.
  set (m := JS.len (maleWorkers workers)) in *.
  set (f := JS.len (femaleWorkers workers)) in *.
  set (a := JS.len (activeWorkers workers)) in *.
  split.
  - destruct (Z.leb_spec (Z.abs (m - f)) ((a + 4) / 5)),
      (Z.leb_spec (5 * Z.abs (m - f)) (a + 4)); try reflexivity;
      exfalso; Z.div_mod_to_equations; lia.
  - intros Ha. apply Z.leb_le. Z.div_mod_to_equations. lia.
Qed.

Lemma balancedGender_integers_witness :
  Snapshot.balancedGender
    (statistics {| Date_now := 0; LocalTZA := 0 |} [worker0] [] "month") = true.
Proof.
  apply (balancedGender_integers {| Date_now := 0; LocalTZA := 0 |} [worker0] [] "month").
  vm_compute. discriminate.
Defined.

(** ** Movements over the time window *)

Lemma date_ge_mono (d : option Z) (t t' : Z) :
  t' <= t -> date_ge d t = true -> date_ge d t' = true.
Proof. destruct d as [x|]; simpl; [|done]. rewrite !Z.leb_le. lia. Qed.

Lemma recent_counts_mono (h : Host) (workers : Workers) (r r' : string) :
  getTimeThreshold h r' <= getTimeThreshold h r ->
  JS.len (recentArrivals h workers r) <= JS.len (recentArrivals h workers r')
  /\ JS.len (recentExits h workers r) <= JS.len (recentExits h workers r').
Proof.
  intros Hle. rewrite !recentArrivals_filter, !recentExits_filter.
  split; apply len_filter_mono; intros w [Hw Hd]%andb_true_iff;
    apply andb_true_iff; (split; [exact Hw|]); by apply (date_ge_mono _ _ _ Hle).
Qed.

(** X9. A longer range never counts fewer arrivals or exits: the counts of
    the week are at most those of the month, those at most the counts of the
    quarter, and those at most the counts of the year.  Whatever the range,
    the arrivals are at most the active workers and the exits at most the
    exited workers, so [netChange] lies between minus the exited workers and
    the active workers. *)
Theorem recent_counts_monotone (h : Host) (workers : Workers) (rooms : Rooms) (timeRange : string) :
  let arrivals r := Snapshot.recentArrivals (statistics h workers rooms r) in
  let exits r := Snapshot.recentExits (statistics h workers rooms r) in
  let s := statistics h workers rooms timeRange in
  (arrivals "week" <= arrivals "month" <= arrivals "quarter"
   /\ arrivals "quarter" <= arrivals "year")
  /\ (exits "week" <= exits "month" <= exits "quarter" /\ exits "quarter" <= exits "year")
  /\ 0 <= Snapshot.recentArrivals s <= Snapshot.totalWorkers s
  /\ 0 <= Snapshot.recentExits s <= Snapshot.totalExitedWorkers s
  /\ - Snapshot.totalExitedWorkers s <= Snapshot.netChange s <= Snapshot.totalWorkers s.
Proof.
  cbn zeta.
  cbn [statistics Snapshot.recentArrivals Snapshot.recentExits Snapshot.totalWorkers
         Snapshot.totalExitedWorkers Snapshot.netChange].
  assert (getTimeThreshold h "month" <= getTimeThreshold h "week") as Hwm.
  { rewrite !getTimeThreshold_days by discriminate.
    unfold cutoff_by_days, range_days, Date.msPerDay. simpl. lia. }
  assert (getTimeThreshold h "quarter" <= getTimeThreshold h "month") as Hmq.
  { rewrite !getTimeThreshold_days by discriminate.
    unfold cutoff_by_days, range_days, Date.msPerDay. simpl. lia. }
  assert (getTimeThreshold h "year" <= getTimeThreshold h "quarter") as Hqy.
  { rewrite (getTimeThreshold_days h "quarter") by discriminate.
    rewrite getTimeThreshold_year.
    unfold cutoff_by_days, range_days, Date.msPerDay. simpl.
    destruct (days_of_year_back_cases (LocalTZA h) (Date_now h)) as [->| ->]; lia. }
  destruct (recent_counts_mono h workers _ _ Hwm) as [Ha1 He1].
  destruct (recent_counts_mono h workers _ _ Hmq) as [Ha2 He2].
  destruct (recent_counts_mono h workers _ _ Hqy) as [Ha3 He3].
  assert (JS.len (recentArrivals h workers timeRange) <= JS.len (activeWorkers workers)) as Ha.
  { rewrite recentArrivals_filter. unfold activeWorkers.
    apply len_filter_mono. by intros w [Hw _]%andb_true_iff. }
  assert (JS.len (recentExits h workers timeRange) <= JS.len (exitedWorkers workers)) as He.
  { unfold recentExits. apply len_filter_le. }
  pose proof (len_nonneg (recentArrivals h workers timeRange)).
  pose proof (len_nonneg (recentExits h workers timeRange)).
  lia.
Qed.

(** X10. The growth flag says that more workers arrived than left in the
    window, that is [netChange > 0].  The badge of the occupancy card is an
    upward 8.5 when it holds and a downward 3.2 otherwise, the badge of the
    workers card an upward 12.1 when somebody arrived and a downward 5.4
    otherwise; neither depends on the rooms. *)
Theorem growth_and_trends
    (h : Host) (workers : Workers) (rooms rooms' : Rooms) (timeRange : string) :
  let s := statistics h workers rooms timeRange in
  Snapshot.hasRecentGrowth s = (0 <? Snapshot.netChange s)
  /\ trend_of (Snapshot.occupancyTrend s)
     = (if 0 <? Snapshot.netChange s then (85 # 10, true) else (32 # 10, false))
  /\ trend_of (Snapshot.workersTrend s)
     = (if 0 <? Snapshot.recentArrivals s then (121 # 10, true) else (54 # 10, false))
  /\ Snapshot.occupancyTrend (statistics h workers rooms' timeRange) = Snapshot.occupancyTrend s
  /\ Snapshot.workersTrend (statistics h workers rooms' timeRange) = Snapshot.workersTrend s.
Proof.
  cbn zeta.
  cbn [statistics Snapshot.hasRecentGrowth Snapshot.netChange Snapshot.occupancyTrend
         Snapshot.workersTrend Snapshot.recentArrivals].
  assert (hasRecentGrowth h workers timeRange
          = (0 <? JS.len (recentArrivals h workers timeRange)
                  - JS.len (recentExits h workers timeRange))) as Hg.
  { unfold hasRecentGrowth.
    destruct (Z.ltb_spec (JS.len (recentExits h workers timeRange))
                (JS.len (recentArrivals h workers timeRange))),
      (Z.ltb_spec 0 (JS.len (recentArrivals h workers timeRange)
                     - JS.len (recentExits h workers timeRange))); (reflexivity || lia). }
  rewrite Hg. clear Hg. repeat apply conj; try reflexivity.
  - destruct (0 <? _); reflexivity.
  - destruct (0 <? _); reflexivity.
Qed.

(** ** The histogram of exit reasons, and its list *)













(** ** Thresholds on rounded figures *)


(** A figure rounded to two decimals exceeds a whole number [k] when the
    figure itself exceeds [k + 0.005], and does not when it is below. *)
Lemma round2_above (x : Q) (k : Z) :
  ((inject_Z k + (5 # 1000) < x)%Q -> Qltb (inject_Z k) (JS.round2 x) = true)
  /\ ((x < inject_Z k + (5 # 1000))%Q -> Qltb (inject_Z k) (JS.round2 x) = false).
Proof.
  unfold JS.round2. destruct (Math_round_bounds (x * 100)) as [Hr1 Hr2].
  set (r := JS.Math_round (x * 100)) in *. split; intros Hx.
  - apply Qltb_lt.
    assert (inject_Z (100 * k) < inject_Z r)%Q as Hlt.
    { apply Qlt_le_trans with (inject_Z (100 * k + 1)).
      - rewrite <- Zlt_Qlt. lia.
      - rewrite <- Zle_Qle.
        assert (inject_Z (100 * k) < inject_Z (r + 1))%Q as H.
        { rewrite inject_Z_plus, inject_Z_mult.
          change (inject_Z 100) with 100%Q. change (inject_Z 1) with 1%Q. lra. }
        rewrite <- Zlt_Qlt in H.
        assert (~ r = 100 * k) as Hne.
        { intros ->. rewrite inject_Z_mult in Hr2. change (inject_Z 100) with 100%Q in Hr2. lra. }
        lia. }
    rewrite inject_Z_mult in Hlt. change (inject_Z 100) with 100%Q in Hlt.
    apply Qlt_shift_div_l; lra.
  - apply Qltb_spec. split; [|discriminate]. intros Hlt. exfalso.
    assert (inject_Z k * 100 < inject_Z r)%Q as Hlt'.
    { apply (Qmult_lt_r _ _ 100) in Hlt; [|lra].
      assert (inject_Z r / 100 * 100 == inject_Z r)%Q as Heq by field.
      rewrite Heq in Hlt. exact Hlt. }
    change 100%Q with (inject_Z 100) in Hlt'. rewrite <- inject_Z_mult, <- Zlt_Qlt in Hlt'.
    assert (inject_Z (k * 100 + 1) <= inject_Z r)%Q as Hle by (rewrite <- Zle_Qle; lia).
    rewrite inject_Z_plus, inject_Z_mult in Hle.
    change (inject_Z 100) with 100%Q in Hle. change (inject_Z 1) with 1%Q in Hle. lra.
Qed.

(** X13. The colour of the retention card is decided on the rounded figure:
    it is green when the retention rate exceeds 85.005 and not when it is
    below, red when the rate is below 70.005 and not when it exceeds it; with
    an empty scope the card is green. *)
Theorem retentionGradient_thresholds
    (h : Host) (workers : Workers) (rooms : Rooms) (timeRange : string) :
  let s := statistics h workers rooms timeRange in
  let green := "bg-gradient-to-br from-green-500 to-emerald-600" in
  let red := "bg-gradient-to-br from-red-500 to-rose-600" in
  ((85 + (5 # 1000) < retentionRate workers)%Q -> retentionGradient s = green)
  /\ ((retentionRate workers < 85 + (5 # 1000))%Q -> retentionGradient s <> green)
  /\ ((retentionRate workers < 70 + (5 # 1000))%Q -> retentionGradient s = red)
  /\ ((70 + (5 # 1000) < retentionRate workers)%Q -> retentionGradient s <> red)
  /\ retentionGradient (statistics h [] rooms timeRange) = green.
Proof.
  cbn zeta. unfold retentionGradient. cbn [statistics Snapshot.retentionRate].
  destruct (round2_above (retentionRate workers) 85) as [H85a H85b].
  destruct (round2_above (retentionRate workers) 70) as [H70a H70b].
  change (inject_Z 85) with 85%Q in *. change (inject_Z 70) with 70%Q in *.
  repeat apply conj.
  - intros Hx. by rewrite (H85a Hx).
  - intros Hx. rewrite (H85b Hx). by destruct (Qltb 70 _).
  - intros Hx. rewrite H85b, (H70b Hx) by lra. reflexivity.
  - intros Hx. rewrite (H70a Hx). by destruct (Qltb 85 _).
  - reflexivity.
Qed.

Lemma retentionGradient_thresholds_witness :
  let s := statistics {| Date_now := 0; LocalTZA := 0 |} one_in_32 [] "month" in
  retentionGradient s = "bg-gradient-to-br from-green-500 to-emerald-600"
  /\ retentionGradient s <> "bg-gradient-to-br from-red-500 to-rose-600"
  /\ retentionGradient
       (statistics {| Date_now := 0; LocalTZA := 0 |}
          [exited_with None; exited_with None; worker0] [] "month")
     = "bg-gradient-to-br from-red-500 to-rose-600".
Proof.
  cbn zeta.
  destruct (retentionGradient_thresholds {| Date_now := 0; LocalTZA := 0 |} one_in_32 [] "month")
    as (Hgreen & _ & _ & Hnotred & _).
  destruct (retentionGradient_thresholds {| Date_now := 0; LocalTZA := 0 |}
              [exited_with None; exited_with None; worker0] [] "month")
    as (_ & _ & Hred & _).
  split; [|split].
  - apply Hgreen. vm_compute. reflexivity.
  - apply Hnotred. vm_compute. reflexivity.
  - apply Hred. vm_compute. reflexivity.
Defined.

(** ** Shares shown as whole percentages *)





(** ** The share of occupied rooms *)



(** ** Network errors *)

Lemma prefix_app (t s : string) : String.prefix t s = true <-> exists b, s = t +:+ b.
Proof.
  revert s. induction t as [|c t IH]; intros s.
  - split; [intros _; by exists s | intros _; by destruct s].
  - destruct s as [|d s]; simpl; [split; [done | intros [b Hb]; discriminate Hb]|].
    destruct (ascii_dec c d) as [->|Hne].
    + rewrite IH. split; intros [b Hb]; exists b.
      * change (String d t +:+ b) with (String d (t +:+ b)). by rewrite Hb.
      * change (String d t +:+ b) with (String d (t +:+ b)) in Hb. by injection Hb.
    + split; [done | intros [b Hb]].
      change (String c t +:+ b) with (String c (t +:+ b)) in Hb. congruence.
Qed.

Lemma includes_app (s t : string) :
  includes s t = true <-> exists a b, s = a +:+ t +:+ b.
Proof.
  induction s as [|c s IH]; cbn [includes].
  - rewrite orb_false_r, prefix_app. split.
    + intros [b Hb]. by exists "", b.
    + intros (a & b & Hab). destruct a; [by exists b|discriminate Hab].
  - rewrite orb_true_iff, prefix_app, IH. split.
    + intros [[b Hb]|(a & b & Hab)]; [by exists "", b|].
      exists (String c a), b.
      change (String c a +:+ t +:+ b) with (String c (a +:+ t +:+ b)). by rewrite Hab.
    + intros ([|d a] & b & Hab); [left; by exists b|].
      right. exists a, b.
      change (String d a +:+ t +:+ b) with (String d (a +:+ t +:+ b)) in Hab.
      by injection Hab.
Qed.

Lemma string_app_assoc (a b c : string) : (a +:+ b) +:+ c = a +:+ (b +:+ c).
Proof.
  induction a as [|x a IH]; [reflexivity|].
  change (String x ((a +:+ b) +:+ c) = String x (a +:+ (b +:+ c))). by f_equal.
Qed.

Lemma includes_trans (s t u : string) :
  includes s t = true -> includes t u = true -> includes s u = true.
Proof.
  rewrite !includes_app. intros (a & b & ->) (a' & b' & ->).
  exists (a +:+ a'), (b' +:+ b). by rewrite !string_app_assoc.
Qed.

(** X16. Only the first error that is set is looked at, [fermesError] before
    [workersError] before [roomsError]: the page reports a network error
    exactly when that message contains "fetch" or "TypeError" (the test for
    "Failed to fetch" adds nothing), so a fetch failure in a later hook is
    not reported when an earlier hook failed otherwise; with no error set
    nothing is reported. *)
Theorem hasNetworkError_first_error
    (fermesError workersError roomsError : option string) :
  (forall e, includes e "Failed to fetch" = true -> includes e "fetch" = true)
  /\ hasNetworkError fermesError workersError roomsError
     = is_network_message (default "" (networkError fermesError workersError roomsError))
  /\ (JS.truthy fermesError = true ->
      hasNetworkError fermesError workersError roomsError
      = is_network_message (default "" fermesError))
  /\ (JS.truthy fermesError = false -> JS.truthy workersError = true ->
      hasNetworkError fermesError workersError roomsError
      = is_network_message (default "" workersError))
  /\ (JS.truthy fermesError = false -> JS.truthy workersError = false ->
      JS.truthy roomsError = false ->
      hasNetworkError fermesError workersError roomsError = false).
Proof.
  assert (forall e, includes e "Failed to fetch" = true -> includes e "fetch" = true) as Hsub.
  { intros e He. apply (includes_trans _ _ _ He). reflexivity. }
  assert (forall o, JS.truthy o = false -> is_network_message (default "" o) = false) as Hfalsy.
  { intros [e|]; simpl; [|reflexivity].
    destruct e; [reflexivity | discriminate]. }
  assert (hasNetworkError fermesError workersError roomsError
          = is_network_message (default "" (networkError fermesError workersError roomsError)))
    as Hmain.
  { unfold hasNetworkError. cbn zeta.
    set (e := networkError fermesError workersError roomsError).
    destruct (JS.truthy e) eqn:Ht; [|by rewrite Hfalsy].
    unfold is_network_message. simpl andb.
    destruct (includes (default "" e) "fetch") eqn:Hf; [reflexivity|].
    destruct (includes (default "" e) "Failed to fetch") eqn:Hff; [|reflexivity].
    apply Hsub in Hff. congruence. }
  repeat apply conj.
  - exact Hsub.
  - exact Hmain.
  - intros Hf. rewrite Hmain. unfold networkError, or_string.
    rewrite Hf. cbv iota. by rewrite Hf.
  - intros Hf Hw. rewrite Hmain. unfold networkError, or_string.
    rewrite Hf. cbv iota. by rewrite Hw.
  - intros Hf Hw Hr. rewrite Hmain. unfold networkError, or_string.
    rewrite Hf. cbv iota. rewrite Hw. by apply Hfalsy.
Qed.

Lemma hasNetworkError_first_error_witness :
  includes "TypeError: Failed to fetch" "fetch" = true
  /\ hasNetworkError (Some "permission-denied") (Some "Failed to fetch") None = false
  /\ hasNetworkError None (Some "Failed to fetch") (Some "permission-denied") = true
  /\ hasNetworkError None (Some "") None = false.
Proof.
  destruct (hasNetworkError_first_error (Some "permission-denied") (Some "Failed to fetch") None)
    as (Hsub & _ & Hfirst & _).
  destruct (hasNetworkError_first_error None (Some "Failed to fetch") (Some "permission-denied"))
    as (_ & _ & _ & Hsecond & _).
  destruct (hasNetworkError_first_error None (Some "") None) as (_ & _ & _ & _ & Hnone).
  repeat apply conj.
  - apply Hsub. reflexivity.
  - rewrite Hfirst; reflexivity.
  - rewrite Hsecond; reflexivity.
  - apply Hnone; reflexivity.
Defined.

(** ** The label of an exit reason *)

Lemma replace_first_length (from to : ascii) (s : string) :
  String.length (replace_first from to s) = String.length s.
Proof.
  induction s as [|c s IH]; [reflexivity|].
  cbn [replace_first]. destruct (Ascii.eqb c from); simpl; congruence.
Qed.

Lemma count_char_nonneg (c : ascii) (s : string) : 0 <= count_char c s.
Proof. induction s as [|a s IH]; simpl; [lia|]. destruct (Ascii.eqb a c); lia. Qed.

(** X17. Only the first underscore of a reason becomes a space: the label
    has the length of the reason, one underscore less and one space more when
    the reason has an underscore, and is the reason itself when it has
    none. *)
Theorem reasonLabel_first_underscore (reason : string) :
  String.length (reasonLabel reason) = String.length reason
  /\ count_char "_" (reasonLabel reason) = Z.max 0 (count_char "_" reason - 1)
  /\ count_char " " (reasonLabel reason)
     = count_char " " reason + Z.min 1 (count_char "_" reason)
  /\ (count_char "_" reason = 0 -> reasonLabel reason = reason).
Proof.
  unfold reasonLabel. split; [apply replace_first_length|].
  induction reason as [|c s (IH1 & IH2 & IH3)]; [repeat split|].
  cbn [replace_first count_char].
  pose proof (count_char_nonneg "_" s). pose proof (count_char_nonneg " " s).
  destruct (Ascii.eqb_spec c "_") as [->|Hc].
  - cbn [count_char]. simpl Ascii.eqb. repeat split; lia.
  - cbn [count_char]. rewrite (proj2 (Ascii.eqb_neq _ _) Hc).
    repeat split; try lia.
    intros Hz. f_equal. apply IH3. lia.
Qed.

Lemma reasonLabel_first_underscore_witness :
  reasonLabel "licenciement" = "licenciement"
  /\ reasonLabel "fin_de_contrat" = "fin de_contrat".
Proof.
  split; [|reflexivity].
  apply (reasonLabel_first_underscore "licenciement"). reflexivity.
Defined.

(** ** The export *)



(** ** The views of the farms *)

Lemma sum_map_zero {A} (l : list A) : JS.sum (map (fun _ => 0) l) = 0.
Proof. induction l as [|x l IH]; [reflexivity|]. cbn [map]. rewrite sum_cons. lia. Qed.

Lemma sum_map_add {A} (f g : A -> Z) (l : list A) :
  JS.sum (map (fun x => f x + g x) l) = JS.sum (map f l) + JS.sum (map g l).
Proof.
  induction l as [|x l IH]; [reflexivity|]. cbn [map]. rewrite !sum_cons. lia.
Qed.

Lemma sum_map_sub {A} (f g : A -> Z) (l : list A) :
  JS.sum (map (fun x => f x - g x) l) = JS.sum (map f l) - JS.sum (map g l).
Proof.
  induction l as [|x l IH]; [reflexivity|]. cbn [map]. rewrite !sum_cons. lia.
Qed.

Lemma sum_map_indicator (k : string) (c : Z) (fs : list string) :
  NoDup fs -> k ∈ fs -> JS.sum (map (fun f => if String.eqb k f then c else 0) fs) = c.
Proof.
  induction 1 as [|f fs Hf Hfs IH]; intros Hk; [by apply elem_of_nil in Hk|].
  cbn [map]. rewrite sum_cons.
  destruct (String.eqb_spec k f) as [->|Hne].
  - rewrite (map_ext_in _ (fun _ => 0)); [rewrite sum_map_zero; lia|].
    intros g Hg. destruct (String.eqb_spec f g) as [->|]; [|reflexivity].
    exfalso. apply Hf. by apply list_elem_of_In.
  - apply elem_of_cons in Hk as [?|Hk]; [done|]. rewrite (IH Hk). lia.
Qed.

(** A total over records that all belong to one of the farms is the sum of
    the totals of the farms. *)
Lemma sum_by_ferme {A} (key : A -> string) (w : A -> Z) (fs : list string) (l : list A) :
  NoDup fs -> Forall (fun x => key x ∈ fs) l ->
  JS.sum (map (fun f => JS.sum (map w (List.filter (fun x => String.eqb (key x) f) l))) fs)
  = JS.sum (map w l).
Proof.
  intros Hfs. induction 1 as [|x l Hx _ IH]; [apply sum_map_zero|].
  cbn [map]. rewrite sum_cons, <- IH, <- (sum_map_indicator (key x) (w x) fs Hfs Hx).
  rewrite <- sum_map_add. f_equal. apply map_ext. intros f.
  cbn [List.filter]. destruct (String.eqb (key x) f); cbn [map]; rewrite ?sum_cons; lia.
Qed.

Lemma len_filter_as_sum {A} (p : A -> bool) (l : list A) :
  JS.len (List.filter p l) = JS.sum (map (fun x => if p x then 1 else 0) l).
Proof.
  induction l as [|x l IH]; [reflexivity|].
  rewrite len_filter_cons. cbn [map]. rewrite sum_cons. lia.
Qed.

Lemma len_filter_by_ferme {A} (key : A -> string) (p : A -> bool) (fs : list string)
    (l : list A) :
  NoDup fs -> Forall (fun x => key x ∈ fs) l ->
  JS.sum (map (fun f => JS.len (List.filter p (List.filter (fun x => String.eqb (key x) f) l)))
            fs)
  = JS.len (List.filter p l).
Proof.
  intros Hfs Hl. rewrite len_filter_as_sum, <- (sum_by_ferme key _ fs l Hfs Hl).
  f_equal. apply map_ext. intros f. apply len_filter_as_sum.
Qed.

Lemma filter_true {A} (l : list A) : List.filter (fun _ => true) l = l.
Proof. induction l as [|x l IH]; [reflexivity|]. cbn [List.filter]. by rewrite IH. Qed.

Lemma totalCapacity_sum (rooms : Rooms) :
  totalCapacity rooms = JS.sum (map Room.capaciteTotale rooms).
Proof.
  induction rooms as [|r rooms IH]; [reflexivity|].
  rewrite totalCapacity_cons. cbn [map]. rewrite sum_cons. lia.
Qed.

(** X19. A user of a farm sees what a super admin sees after selecting that
    farm.  When the farms of the selector are distinct, none of them has the
    identifier 'all', and every worker and room belongs to one of them, the
    counts that a super admin reads under 'all' are the sums of the counts
    read farm by farm: workers, inactive and exited workers, rooms, capacity,
    occupied and available places, arrivals, exits and net change. *)
Theorem farm_views
    (h : Host) (auth : Auth) (fermes : list string) (allWorkers : Workers) (allRooms : Rooms)
    (timeRange : string) :
  let total field :=
    JS.sum (map (fun f => field (view h auth allWorkers allRooms timeRange f)) fermes) in
  let all := view h auth allWorkers allRooms timeRange "all" in
  (forall user f,
      isSuperAdmin user = false -> user_fermeId user = Some f -> f <> "all" ->
      view h user allWorkers allRooms timeRange "all"
      = view h auth allWorkers allRooms timeRange f)
  /\ (isSuperAdmin auth = true -> NoDup fermes -> "all" ∉ fermes ->
      Forall (fun w => Worker.fermeId w ∈ fermes) allWorkers ->
      Forall (fun r => Room.fermeId r ∈ fermes) allRooms ->
      Snapshot.totalWorkers all = total Snapshot.totalWorkers
      /\ Snapshot.totalInactiveWorkers all = total Snapshot.totalInactiveWorkers
      /\ Snapshot.totalExitedWorkers all = total Snapshot.totalExitedWorkers
      /\ Snapshot.totalRooms all = total Snapshot.totalRooms
      /\ Snapshot.totalCapacity all = total Snapshot.totalCapacity
      /\ Snapshot.occupiedPlaces all = total Snapshot.occupiedPlaces
      /\ Snapshot.availablePlaces all = total Snapshot.availablePlaces
      /\ Snapshot.recentArrivals all = total Snapshot.recentArrivals
      /\ Snapshot.recentExits all = total Snapshot.recentExits
      /\ Snapshot.netChange all = total Snapshot.netChange).
Proof.
  cbn zeta. split.
  - intros user f Hrole Hfarm Hne. unfold view, scoped_workers, scoped_rooms.
    cbn [String.eqb Ascii.eqb Bool.eqb]. rewrite Hrole, Hfarm.
    rewrite (proj2 (String.eqb_neq _ _) Hne). reflexivity.
  - intros Hadmin Hfs Hall Hw Hr.
    assert (forall field : Snapshot.t -> Z,
               map (fun f => field (view h auth allWorkers allRooms timeRange f)) fermes
               = map (fun f => field (statistics h
                         (List.filter (fun w => String.eqb (Worker.fermeId w) f) allWorkers)
                         (List.filter (fun r => String.eqb (Room.fermeId r) f) allRooms)
                         timeRange)) fermes) as Hview.
    { intros field. apply map_ext_in. intros f Hf%list_elem_of_In.
      assert (f <> "all") as Hne by (intros ->; by apply Hall).
      unfold view, scoped_workers, scoped_rooms.
      by rewrite (proj2 (String.eqb_neq _ _) Hne). }
    rewrite !Hview. clear Hview.
    unfold view, scoped_workers, scoped_rooms. cbn [String.eqb Ascii.eqb Bool.eqb].
    rewrite Hadmin.
    cbn [statistics Snapshot.totalWorkers Snapshot.totalInactiveWorkers
           Snapshot.totalExitedWorkers Snapshot.totalRooms Snapshot.totalCapacity
           Snapshot.occupiedPlaces Snapshot.availablePlaces Snapshot.recentArrivals
           Snapshot.recentExits Snapshot.netChange].
    assert (forall p : Worker.t -> bool,
               JS.sum (map (fun f => JS.len (List.filter p
                              (List.filter (fun w => String.eqb (Worker.fermeId w) f) allWorkers)))
                         fermes)
               = JS.len (List.filter p allWorkers)) as Hcount
        by (intros p; by apply len_filter_by_ferme).
    assert (JS.sum (map (fun f => totalCapacity
                           (List.filter (fun r => String.eqb (Room.fermeId r) f) allRooms)) fermes)
            = totalCapacity allRooms) as Hcap.
    { rewrite totalCapacity_sum, <- (sum_by_ferme Room.fermeId _ fermes allRooms Hfs Hr).
      f_equal. apply map_ext. intros f. apply totalCapacity_sum. }
    assert (JS.sum (map (fun f => occupiedPlaces
                           (List.filter (fun w => String.eqb (Worker.fermeId w) f) allWorkers))
                      fermes)
            = occupiedPlaces allWorkers) as Hocc.
    { rewrite occupiedPlaces_count, <- Hcount. f_equal. apply map_ext. intros f.
      apply occupiedPlaces_count. }
    assert (JS.sum (map (fun f => JS.len (recentArrivals h
                           (List.filter (fun w => String.eqb (Worker.fermeId w) f) allWorkers)
                           timeRange)) fermes)
            = JS.len (recentArrivals h allWorkers timeRange)) as Harr.
    { rewrite recentArrivals_filter, <- Hcount. f_equal. apply map_ext. intros f.
      by rewrite recentArrivals_filter. }
    assert (JS.sum (map (fun f => JS.len (recentExits h
                           (List.filter (fun w => String.eqb (Worker.fermeId w) f) allWorkers)
                           timeRange)) fermes)
            = JS.len (recentExits h allWorkers timeRange)) as Hex.
    { rewrite recentExits_filter, <- Hcount. f_equal. apply map_ext. intros f.
      by rewrite recentExits_filter. }
    repeat apply conj.
    + symmetry. apply Hcount.
    + symmetry. apply Hcount.
    + symmetry. apply Hcount.
    + rewrite <- (filter_true allRooms) at 1.
      rewrite <- (len_filter_by_ferme Room.fermeId (fun _ => true) fermes allRooms Hfs Hr).
      f_equal. apply map_ext. intros f. by rewrite filter_true.
    + symmetry. exact Hcap.
    + symmetry. exact Hocc.
    + unfold availablePlaces. by rewrite sum_map_sub, Hcap, Hocc.
    + symmetry. exact Harr.
    + symmetry. exact Hex.
    + by rewrite sum_map_sub, Harr, Hex.
Qed.

Lemma farm_views_witness :
  let admin := {| user_fermeId := None; isSuperAdmin := true |} in
  let user := {| user_fermeId := Some "f2"; isSuperAdmin := false |} in
  let other := Worker.mk "b" "f2" "actif" "femme" 22 None None None None in
  let h := {| Date_now := 0; LocalTZA := 0 |} in
  view h user [worker0; other] [room0] "month" "all"
  = view h admin [worker0; other] [room0] "month" "f2"
  /\ Snapshot.totalWorkers (view h admin [worker0; other] [room0] "month" "all")
     = JS.sum (map (fun f => Snapshot.totalWorkers
                               (view h admin [worker0; other] [room0] "month" f))
                 ["f1"; "f2"]).
Proof.
  cbn zeta.
  destruct (farm_views {| Date_now := 0; LocalTZA := 0 |}
              {| user_fermeId := None; isSuperAdmin := true |} ["f1"; "f2"]
              [worker0; Worker.mk "b" "f2" "actif" "femme" 22 None None None None] [room0]
              "month") as [Huser Hsum].
  split.
  - apply Huser; [reflexivity | reflexivity | discriminate].
  - apply Hsum.
    + reflexivity.
    + eapply bool_decide_unpack. vm_compute. exact I.
    + eapply bool_decide_unpack. vm_compute. exact I.
    + eapply bool_decide_unpack. vm_compute. exact I.
    + eapply bool_decide_unpack. vm_compute. exact I.
Defined.
